(** * poc_python_autogen: a shallow embedding of the code-generation script

    The script asks a remote model for code, cuts the fenced block out of
    the answer, checks that it parses, writes it to the workspace, asks for a
    review and for tests, and runs the tests.  This file embeds the pure
    string functions and the effectful pipeline of [poc_python_autogen.py]
    and states the properties of its specification over them. *)

From Stdlib Require Import String Ascii DecimalString.
From stdpp Require Import gmap list.

#[local] Set Warnings "-register-all".

Local Open Scope N_scope.
Local Open Scope list_scope.

(** ** Python strings

    A Python [str] is a sequence of Unicode code points; a code point is a
    number. *)

Module PyStr.

(** A literal of the source, code point by code point. *)
Fixpoint lit (s : string) : list N :=
  match s with
  | EmptyString => []
  | String a s' => N_of_ascii a :: lit s'
  end.

(** [str.isspace] on one code point, the set [str.strip()] removes: the
    ASCII controls 0x09-0x0D and 0x1C-0x1F, the space, and the Unicode
    characters of bidirectional type WS, B or S or of category Zs. *)
Definition isspace (c : N) : bool :=
  ((9 <=? c) && (c <=? 13)) || ((28 <=? c) && (c <=? 32))
  || (c =? 133) || (c =? 160) || (c =? 5760)
  || ((8192 <=? c) && (c <=? 8202))
  || (c =? 8232) || (c =? 8233) || (c =? 8239) || (c =? 8287) || (c =? 12288).

Fixpoint lstrip (s : list N) : list N :=
  match s with
  | c :: s' => if isspace c then lstrip s' else s
  | [] => []
  end.

Definition rstrip (s : list N) : list N := rev (lstrip (rev s)).

(** [s.strip()] *)
Definition strip (s : list N) : list N := rstrip (lstrip s).

(** [s.startswith(p)] *)
Fixpoint startswith (p s : list N) : bool :=
  match p, s with
  | [], _ => true
  | _ :: _, [] => false
  | a :: p', b :: s' => (a =? b) && startswith p' s'
  end.

(** [s.find(sub)]: the index of the leftmost occurrence, [None] for -1. *)
Fixpoint find (sub s : list N) : option nat :=
  if startswith sub s then Some O
  else match s with
       | [] => None
       | _ :: s' => S <$> find sub s'
       end.

(** [sub in s] *)
Definition contains (sub s : list N) : bool :=
  match find sub s with Some _ => true | None => false end.

(** The scan of [s.split(sep)] for a non-empty [sep]: occurrences are taken
    leftmost first and do not overlap.  [cur] holds, reversed, the segment
    being collected; [skip] counts the characters of a matched separator
    still to be passed over. *)
Fixpoint split_go (sep : list N) (skip : nat) (cur s : list N) : list (list N) :=
  match s with
  | [] => [rev cur]
  | c :: s' =>
      match skip with
      | S k => split_go sep k cur s'
      | O =>
          if startswith sep s
          then rev cur :: split_go sep (length sep - 1) [] s'
          else split_go sep 0 (c :: cur) s'
      end
  end.

(** [s.split(sep)]; Python raises [ValueError("empty separator")] when
    [sep] is empty, which is [None] here. *)
Definition split (sep s : list N) : option (list (list N)) :=
  match sep with
  | [] => None
  | _ :: _ => Some (split_go sep 0 [] s)
  end.

(** Truth value of a string: non-empty. *)
Definition truthy (s : list N) : bool :=
  match s with [] => false | _ :: _ => true end.

End PyStr.

Import PyStr.

(** ** Exceptions *)

Module Exn.

(** The exception classes the script can meet. [KeyboardInterrupt] and
    [SystemExit] derive from [BaseException] only. *)
Inductive cls :=
  | BaseException | Exception | KeyboardInterrupt | SystemExit
  | ValueError | SyntaxError | IndentationError | TabError
  | KeyError | IndexError | TypeError | AttributeError
  | OSError | FileExistsError | FileNotFoundError | IsADirectoryError
  | NotADirectoryError | PermissionError
  | UnicodeDecodeError | UnicodeEncodeError | JSONDecodeError
  | RequestException | HTTPError | ConnectionError
  | RecursionError | MemoryError.

(** The direct base class; [BaseException] is the root. *)
Definition base (c : cls) : option cls :=
  match c with
  | BaseException => None
  | Exception | KeyboardInterrupt | SystemExit => Some BaseException
  | ValueError | SyntaxError | KeyError | IndexError | TypeError
  | AttributeError | OSError | RecursionError | MemoryError => Some Exception
  | IndentationError => Some SyntaxError
  | TabError => Some IndentationError
  | FileExistsError | FileNotFoundError | IsADirectoryError
  | NotADirectoryError | PermissionError => Some OSError
  | UnicodeDecodeError | UnicodeEncodeError | JSONDecodeError => Some ValueError
  | RequestException => Some OSError
  | HTTPError | ConnectionError => Some RequestException
  end.

Definition cls_eqb (a b : cls) : bool :=
  match a, b with
  | BaseException, BaseException | Exception, Exception
  | KeyboardInterrupt, KeyboardInterrupt | SystemExit, SystemExit
  | ValueError, ValueError | SyntaxError, SyntaxError
  | IndentationError, IndentationError | TabError, TabError
  | KeyError, KeyError | IndexError, IndexError | TypeError, TypeError
  | AttributeError, AttributeError | OSError, OSError
  | FileExistsError, FileExistsError | FileNotFoundError, FileNotFoundError
  | IsADirectoryError, IsADirectoryError
  | NotADirectoryError, NotADirectoryError | PermissionError, PermissionError
  | UnicodeDecodeError, UnicodeDecodeError
  | UnicodeEncodeError, UnicodeEncodeError | JSONDecodeError, JSONDecodeError
  | RequestException, RequestException | HTTPError, HTTPError
  | ConnectionError, ConnectionError
  | RecursionError, RecursionError | MemoryError, MemoryError => true
  | _, _ => false
  end.

(** [issubclass(c, d)], walking up at most the depth of the hierarchy. *)
Fixpoint issubclass_fuel (n : nat) (c d : cls) : bool :=
  cls_eqb c d ||
  match n with
  | O => false
  | S n' => match base c with
            | Some b => issubclass_fuel n' b d
            | None => false
            end
  end.

Definition issubclass (c d : cls) : bool := issubclass_fuel 5 c d.

(** A raised exception: its class and the text [str(e)] gives. *)
Record t := Raised { class : cls; text : list N }.

(** [isinstance(e, d)], what [except d] tests. *)
Definition isinstance (e : t) (d : cls) : bool := issubclass (class e) d.

End Exn.

(** The outcome of a call: a value, or a raised exception. *)
Inductive result (A : Type) :=
  | Ok (a : A)
  | Raise (e : Exn.t).

Arguments Ok {A} a.
Arguments Raise {A} e.

(** ** Code extraction *)

Definition FENCE_PYTHON : list N := lit "```python".
Definition FENCE : list N := lit "```".

(** The filter of the list comprehension: [block.strip() and "```" in block]. *)
Definition is_code_block (block : list N) : bool :=
  truthy (strip block) && contains FENCE block.

(** [code_blocks[0].split("```")[0].strip()] *)
Definition first_block_code (block : list N) : result (list N) :=
  match split FENCE block with
  | Some (seg :: _) => Ok (strip seg)
  | Some [] => Raise (Exn.Raised Exn.IndexError (lit "list index out of range"))
  | None => Raise (Exn.Raised Exn.ValueError (lit "empty separator"))
  end.

(** The list comprehension over the segments of the split. *)
Definition code_blocks (segments : list (list N)) : list (list N) :=
  filter (fun block => is_code_block block = true) segments.

(** [CodeProject.extract_code_from_response] *)
Definition extract_code_from_response (response : list N) : result (list N) :=
  match split FENCE_PYTHON response with
  | None => Raise (Exn.Raised Exn.ValueError (lit "empty separator"))
  | Some segments =>
      match code_blocks segments with
      | [] => Raise (Exn.Raised Exn.ValueError (lit "No code was generated"))
      | block :: _ => first_block_code block
      end
  end.

(** ** Python values

    What [response.json()] can hand back, and so what the script passes
    around where it expects a string. A float is a decimal [m * 10^e]. *)

Inductive pyval :=
  | PNone
  | PBool (b : bool)
  | PInt (z : Z)
  | PFloat (m e : Z)
  | PStr (s : list N)
  | PList (l : list pyval)
  | PDict (d : list (list N * pyval)).

Module Py.

(** [type(v).__name__] *)
Definition type_name (v : pyval) : list N :=
  match v with
  | PNone => lit "NoneType"
  | PBool _ => lit "bool"
  | PInt _ => lit "int"
  | PFloat _ _ => lit "float"
  | PStr _ => lit "str"
  | PList _ => lit "list"
  | PDict _ => lit "dict"
  end.

(** Decimal digits of an integer, as [str(n)] writes them. *)
Definition decimal (z : Z) : list N := lit (NilZero.string_of_int (Z.to_int z)).

(** Lookup of a string key in a dict. *)
Fixpoint dict_get (d : list (list N * pyval)) (k : list N) : option pyval :=
  match d with
  | [] => None
  | (k', v) :: d' => if decide (k' = k) then Some v else dict_get d' k
  end.

(** One hexadecimal digit, in lower case. *)
Definition hex_digit (n : N) : N := if n <? 10 then 48 + n else 87 + n.

(** The quote [repr] puts around a string: a double quote when the string
    holds an apostrophe and no double quote, an apostrophe otherwise. *)
Definition repr_quote (s : list N) : N :=
  if existsb (N.eqb 39) s && negb (existsb (N.eqb 34) s) then 34 else 39.

(** One character inside [repr]: the backslash and the quote are escaped,
    as are the controls and the characters of Latin-1 that do not print.
    Code points from 256 on are taken to print. *)
Definition repr_char (quote c : N) : list N :=
  if c =? 92 then [92; 92]
  else if c =? quote then [92; quote]
  else if c =? 10 then [92; 110]
  else if c =? 13 then [92; 114]
  else if c =? 9 then [92; 116]
  else if (c <? 32) || ((127 <=? c) && (c <=? 160)) || (c =? 173)
       then [92; 120; hex_digit (c / 16); hex_digit (c mod 16)]
  else [c].

(** [repr(k)] of a string, the text of a [KeyError] for the key [k]. *)
Definition repr_key (k : list N) : list N :=
  [repr_quote k] ++ concat (map (repr_char (repr_quote k)) k) ++ [repr_quote k].

Definition not_subscriptable (v : pyval) : Exn.t :=
  Exn.Raised Exn.TypeError
    (lit "'" ++ type_name v ++ lit "' object is not subscriptable").

(** [v[k]] for a string [k]. *)
Definition getitem_str (v : pyval) (k : list N) : result pyval :=
  match v with
  | PDict d =>
      match dict_get d k with
      | Some x => Ok x
      | None => Raise (Exn.Raised Exn.KeyError (repr_key k))
      end
  | PList _ =>
      Raise (Exn.Raised Exn.TypeError
               (lit "list indices must be integers or slices, not str"))
  | PStr _ =>
      Raise (Exn.Raised Exn.TypeError
               (lit "string indices must be integers, not 'str'"))
  | _ => Raise (not_subscriptable v)
  end.

(** [l[i]] on a sequence of length [length l], negative indices counted
    from the end. *)
Definition index {A} (l : list A) (i : Z) : option A :=
  let n := Z.of_nat (length l) in
  if (0 <=? i)%Z then l !! Z.to_nat i
  else if (0 <=? n + i)%Z then l !! Z.to_nat (n + i)
  else None.

(** [v[i]] for an integer [i]. *)
Definition getitem_int (v : pyval) (i : Z) : result pyval :=
  match v with
  | PList l =>
      match index l i with
      | Some x => Ok x
      | None => Raise (Exn.Raised Exn.IndexError (lit "list index out of range"))
      end
  | PStr s =>
      match index s i with
      | Some c => Ok (PStr [c])
      | None => Raise (Exn.Raised Exn.IndexError (lit "string index out of range"))
      end
  | PDict _ => Raise (Exn.Raised Exn.KeyError (decimal i))
  | _ => Raise (not_subscriptable v)
  end.

(** [a or b] on optional strings: [a] when it is truthy, else [b]. *)
Definition or_else (a b : option (list N)) : option (list N) :=
  match a with
  | Some (_ :: _) => a
  | _ => b
  end.

(** Truth value of an optional string: [None] and the empty string are
    false. *)
Definition truthy_opt (a : option (list N)) : bool :=
  match a with
  | Some s => truthy s
  | None => false
  end.

(** [os.path.join(a, b)] on POSIX. *)
Definition path_join (a b : list N) : list N :=
  if startswith (lit "/") b then b
  else match last a with
       | None => b
       | Some c => if c =? 47 then a ++ b else a ++ lit "/" ++ b
       end.

End Py.

(** ** The world the script runs in *)

(** How the operating system refuses to make a directory, to open, read or
    write a file, or to write to the standard output. *)
Inductive io_class :=
  | IoFileExists | IoFileNotFound | IoNotADirectory | IoIsADirectory
  | IoPermission | IoEncode | IoOther.

Record io_error := IoError { io_kind : io_class; io_text : list N }.

(** A file of the disk: it holds text; or bytes that do not decode as text,
    [why] being the text of the decoding error; or it cannot be opened for
    reading. *)
Inductive file :=
  | Text (s : list N)
  | Undecodable (why : list N)
  | Unreadable (e : io_error).

(** What [with open(path, "w") as f: f.write(text)] does: the text is
    written; or the file cannot be opened and stays as it is; or it is
    opened, and so created or emptied, and the write fails, leaving
    [remains] in it (nothing, when the text does not encode). *)
Inductive write_outcome :=
  | Written
  | OpenFailed (e : io_error)
  | WriteFailed (e : io_error) (remains : list N).

(** [requests]: a request as [requests.post] receives it ([data] is the
    value given to [json.dumps]) and the response it returns. *)
Record request := Request {
  req_url : list N;
  req_authorization : list N;
  req_data : pyval
}.

Record response := Response {
  status_code : Z;
  reason : list N;
  resp_url : list N;
  json_body : result pyval    (* what [response.json()] does *)
}.

(** What the script does to the outside, in the order it does it. *)
Inductive event :=
  | Print (v : pyval)
  | Post (req : request)
  | Makedirs (path : list N)
  | Write (path code : list N)
  | Read (path : list N)
  | Pytest (args : list (list N))
  | Construct (class_name : list N).

(** The disk keeps each file under one name, whatever the paths that lead
    to it: see [locate]. *)
Record world := World {
  files : gmap (list N) file;
  posts : nat;              (* HTTP requests sent so far *)
  trace : list event
}.

(** The facilities the script uses as they are: the environment, the
    remote service (its answer to the n-th request), the parser of
    [ast.parse], the test runner (which may leave the files changed), and
    the operating system. It resolves a path to the file it names, two
    paths of one file (["a"] and ["./a"], a link and its target) to the same
    name; and it decides, after what the script did so far, whether a
    directory is made, a file written, a value printed. *)
Record externals := Externals {
  getenv : list N -> option (list N);
  locate : list N -> list N;
  requests_post : nat -> request -> result response;
  ast_parse : list N -> result unit;
  pytest_main : list (list N) -> gmap (list N) file
                -> result Z * gmap (list N) file;
  os_makedirs : list event -> list N -> option io_error;
  open_write : list event -> list N -> list N -> write_outcome;
  stdout_write : list event -> pyval -> option io_error
}.

(** The exception of a refusal of the operating system. *)
Definition io_exn (e : io_error) : Exn.t :=
  Exn.Raised
    match io_kind e with
    | IoFileExists => Exn.FileExistsError
    | IoFileNotFound => Exn.FileNotFoundError
    | IoNotADirectory => Exn.NotADirectoryError
    | IoIsADirectory => Exn.IsADirectoryError
    | IoPermission => Exn.PermissionError
    | IoEncode => Exn.UnicodeEncodeError
    | IoOther => Exn.OSError
    end
    (io_text e).

(** ** Computations: state passing with exceptions

    An exception leaves the effects already done in place. *)

Definition M (A : Type) : Type := world -> result A * world.

Definition ret {A} (a : A) : M A := fun w => (Ok a, w).

Definition raise {A} (c : Exn.cls) (msg : list N) : M A :=
  fun w => (Raise (Exn.Raised c msg), w).

Definition bind {A B} (m : M A) (k : A -> M B) : M B :=
  fun w => match m w with
           | (Ok a, w') => k a w'
           | (Raise e, w') => (Raise e, w')
           end.

Definition lift {A} (r : result A) : M A := fun w => (r, w).

(** [try: m  except c as e: h e] *)
Definition try_except {A} (m : M A) (c : Exn.cls) (h : Exn.t -> M A) : M A :=
  fun w => match m w with
           | (Ok a, w') => (Ok a, w')
           | (Raise e, w') => if Exn.isinstance e c then h e w' else (Raise e, w')
           end.

(** The world after one more event. *)
Definition log (ev : event) (w : world) : world :=
  World (files w) (posts w) (trace w ++ [ev]).

Definition emit (ev : event) : M unit := fun w => (Ok tt, log ev w).

Notation "'let*' x ':=' m 'in' k" := (bind m (fun x => k))
  (at level 10, x name, m at level 100, k at level 200).
Notation "m ';;' k" := (bind m (fun _ => k))
  (at level 100, k at level 200, right associativity).

(** [print(s)] for a string. *)
Definition print (s : list N) : M unit := emit (Print (PStr s)).

(** ** The client of the remote service *)

Record OpenRouterLLM := { api_key : list N; base_url : list N }.

(** [OpenRouterLLM.__init__] *)
Definition OpenRouterLLM_init (key : list N) : M OpenRouterLLM :=
  emit (Construct (lit "OpenRouterLLM"));;
  ret {| api_key := key;
         base_url := lit "https://openrouter.ai/api/v1/chat/completions" |}.

(** The dict given to [json.dumps]: the fixed model and sampling
    parameters around the messages. *)
Definition payload (messages : pyval) : pyval :=
  PDict [ (lit "model", PStr (lit "anthropic/claude-3.5-sonnet"));
          (lit "messages", messages);
          (lit "top_p", PInt 1);
          (lit "temperature", PFloat 1 (-1));
          (lit "frequency_penalty", PInt 0);
          (lit "presence_penalty", PInt 0);
          (lit "repetition_penalty", PInt 1);
          (lit "top_k", PInt 0) ].

(** The world after one more request. *)
Definition sent (req : request) (w : world) : world :=
  World (files w) (S (posts w)) (trace w ++ [Post req]).

(** [requests.post]: the next request goes out and is answered. *)
Definition post (X : externals) (req : request) : M response :=
  fun w => (requests_post X (posts w) req, sent req w).

(** [Response.raise_for_status] of [requests]: an [HTTPError] for a client
    error (400 to 499) or a server error (500 to 599), nothing otherwise. *)
Definition raise_for_status (r : response) : result unit :=
  let st := status_code r in
  if ((400 <=? st) && (st <? 500))%Z then
    Raise (Exn.Raised Exn.HTTPError
             (Py.decimal st ++ lit " Client Error: " ++ reason r
                ++ lit " for url: " ++ resp_url r))
  else if ((500 <=? st) && (st <? 600))%Z then
    Raise (Exn.Raised Exn.HTTPError
             (Py.decimal st ++ lit " Server Error: " ++ reason r
                ++ lit " for url: " ++ resp_url r))
  else Ok tt.

(** [response.json()['choices'][0]['message']['content']] *)
Definition first_choice_content (r : response) : result pyval :=
  match json_body r with
  | Raise e => Raise e
  | Ok body =>
      match Py.getitem_str body (lit "choices") with
      | Raise e => Raise e
      | Ok choices =>
          match Py.getitem_int choices 0 with
          | Raise e => Raise e
          | Ok choice =>
              match Py.getitem_str choice (lit "message") with
              | Raise e => Raise e
              | Ok message => Py.getitem_str message (lit "content")
              end
          end
      end
  end.

(** The request of [generate_response]: the endpoint, the bearer token and
    the serialised payload. *)
Definition request_of (self : OpenRouterLLM) (messages : pyval) : request :=
  {| req_url := base_url self;
     req_authorization := lit "Bearer " ++ api_key self;
     req_data := payload messages |}.

(** The body of the [try] in [generate_response]. *)
Definition generate_response_try (X : externals) (self : OpenRouterLLM)
    (messages : pyval) : M pyval :=
  let* r := post X (request_of self messages) in
  lift (raise_for_status r);;
  lift (first_choice_content r).

(** [OpenRouterLLM.generate_response] *)
Definition generate_response (X : externals) (self : OpenRouterLLM)
    (messages : pyval) : M pyval :=
  try_except (generate_response_try X self messages) Exn.Exception
    (fun e => raise Exn.Exception (lit "Error generating response: " ++ Exn.text e)).

(** ** The project *)

Record CodeProject := { workspace_dir : list N; llm : OpenRouterLLM }.

(** [CodeProject.__init__] *)
Definition CodeProject_init (workspace key : list N) : M CodeProject :=
  emit (Construct (lit "CodeProject"));;
  let* client := OpenRouterLLM_init key in
  ret {| workspace_dir := workspace; llm := client |}.

Definition system_messages : list (list N * pyval) :=
  [ (lit "code_writer",
     PStr (lit "You are a skilled Python developer. Write clean, efficient, and well-documented code."));
    (lit "code_reviewer",
     PStr (lit "You are a code reviewer. Analyze code for best practices, potential issues, and improvements."));
    (lit "test_writer",
     PStr (lit "You are a test engineer. Write comprehensive unit tests and integration tests.")) ].

(** The two messages of a call: the system message of the role, then the
    prompt. *)
Definition messages_for (system : pyval) (prompt : list N) : pyval :=
  PList [ PDict [ (lit "role", PStr (lit "system")); (lit "content", system) ];
          PDict [ (lit "role", PStr (lit "user")); (lit "content", PStr prompt) ] ].

(** [CodeProject.get_llm_response] *)
Definition get_llm_response (X : externals) (self : CodeProject)
    (role prompt : list N) : M pyval :=
  let* system := lift (Py.getitem_str (PDict system_messages) role) in
  generate_response X (llm self) (messages_for system prompt).

(** [CodeProject.validate_python_code] *)
Definition validate_python_code (X : externals) (code : list N) : result bool :=
  match ast_parse X code with
  | Ok _ => Ok true
  | Raise e => if Exn.isinstance e Exn.SyntaxError then Ok false else Raise e
  end.

(** The world after [os.makedirs(path, exist_ok=True)] returned. *)
Definition made (path : list N) (w : world) : world := log (Makedirs path) w.

(** The world after [code] was written to the file [path]. *)
Definition written (X : externals) (path code : list N) (w : world) : world :=
  World (<[locate X path := Text code]> (files w)) (posts w)
        (trace w ++ [Write path code]).

(** The world after the file [path] was opened for writing and the write
    failed: [remains] is in the file. *)
Definition spoiled (X : externals) (path remains : list N) (w : world) : world :=
  World (<[locate X path := Text remains]> (files w)) (posts w) (trace w).

(** [os.makedirs(path, exist_ok=True)]: the directory and its missing
    parents are made, or the operating system refuses. *)
Definition makedirs (X : externals) (path : list N) : M unit :=
  fun w =>
    match os_makedirs X (trace w) path with
    | None => (Ok tt, made path w)
    | Some e => (Raise (io_exn e), w)
    end.

(** [with open(path, "w") as f: f.write(code)] *)
Definition write_file (X : externals) (path code : list N) : M unit :=
  fun w =>
    match open_write X (trace w) path code with
    | Written => (Ok tt, written X path code w)
    | OpenFailed e => (Raise (io_exn e), w)
    | WriteFailed e remains => (Raise (io_exn e), spoiled X path remains w)
    end.

(** [CodeProject.write_code_to_file] *)
Definition write_code_to_file (X : externals) (self : CodeProject)
    (code filename : list N) : M unit :=
  makedirs X (workspace_dir self);;
  write_file X (Py.path_join (workspace_dir self) filename) code.

(** [print(v)] of a value received from the service: the standard output
    takes it, or refuses it (a text it cannot encode). *)
Definition print_value (X : externals) (v : pyval) : M unit :=
  fun w =>
    match stdout_write X (trace w) v with
    | None => (Ok tt, log (Print v) w)
    | Some e => (Raise (io_exn e), w)
    end.

(** The call [self.extract_code_from_response(v)] on whatever the client
    returned: only a string has [split]. *)
Definition extract_code (v : pyval) : result (list N) :=
  match v with
  | PStr s => extract_code_from_response s
  | _ => Raise (Exn.Raised Exn.AttributeError
                  (lit "'" ++ Py.type_name v ++ lit "' object has no attribute 'split'"))
  end.

Definition MAIN_PY : list N := lit "main.py".
Definition TEST_MAIN_PY : list N := lit "test_main.py".

Definition fenced (code : list N) : list N :=
  [10] ++ lit "```python" ++ [10] ++ code ++ [10] ++ lit "```".

Definition writer_prompt (requirements : list N) : list N :=
  lit "Generate Python code based on these requirements: " ++ requirements.
Definition review_prompt (code : list N) : list N :=
  lit "Review this Python code:" ++ fenced code.
Definition test_prompt (code : list N) : list N :=
  lit "Write unit tests for this code:" ++ fenced code.

(** [CodeProject.generate_project] *)
Definition generate_project (X : externals) (self : CodeProject)
    (requirements : list N) : M unit :=
  let* code_response :=
    get_llm_response X self (lit "code_writer") (writer_prompt requirements) in
  let* code := lift (extract_code code_response) in
  let* valid := lift (validate_python_code X code) in
  if negb valid then raise Exn.ValueError (lit "Generated code is not valid Python")
  else
    write_code_to_file X self code MAIN_PY;;
    let* review_response :=
      get_llm_response X self (lit "code_reviewer") (review_prompt code) in
    print ([10] ++ lit "Code Review:");;
    print_value X review_response;;
    let* test_response :=
      get_llm_response X self (lit "test_writer") (test_prompt code) in
    let* test_code := lift (extract_code test_response) in
    write_code_to_file X self test_code TEST_MAIN_PY.

(** The world after the test runner ran: the files are as it left them. *)
Definition tested (X : externals) (args : list (list N)) (w : world) : world :=
  World (snd (pytest_main X args (files w))) (posts w) (trace w ++ [Pytest args]).

(** [pytest.main(args)]: the runner reads the files, runs the tests, which
    may change the files, and returns its exit code, or raises. *)
Definition pytest (X : externals) (args : list (list N)) : M Z :=
  fun w => (fst (pytest_main X args (files w)), tested X args w).

(** [CodeProject.run_tests]: the exit code of the runner is dropped. *)
Definition run_tests (X : externals) (self : CodeProject) : M unit :=
  try_except
    (pytest X [Py.path_join (workspace_dir self) TEST_MAIN_PY; lit "-v"];;
     ret tt)
    Exn.Exception
    (fun e => print (lit "Error running tests: " ++ Exn.text e)).

(** ** The manager and its error boundary *)

Record ProjectManager := { project : CodeProject }.

(** [ProjectManager.__init__] *)
Definition ProjectManager_init (workspace key : list N) : M ProjectManager :=
  emit (Construct (lit "ProjectManager"));;
  let* p := CodeProject_init workspace key in
  ret {| project := p |}.

(** [ProjectManager.create_project] *)
Definition create_project (X : externals) (self : ProjectManager)
    (requirements : list N) : M unit :=
  try_except
    (print (lit "Generating project...");;
     generate_project X (project self) requirements;;
     print ([10] ++ lit "Running tests...");;
     run_tests X (project self);;
     print ([10] ++ lit "Project generation completed!"))
    Exn.Exception
    (fun e => print (lit "Error creating project: " ++ Exn.text e)).

(** ** Requirements, arguments and [main] *)

(** What a read in text mode makes of the line ends: CR LF and a lone CR
    are read as LF. *)
Fixpoint universal_newlines (s : list N) : list N :=
  match s with
  | [] => []
  | c :: s' =>
      if c =? 13 then
        match s' with
        | d :: s'' =>
            if d =? 10 then 10 :: universal_newlines s''
            else 10 :: universal_newlines s'
        | [] => [10]
        end
      else c :: universal_newlines s'
  end.

(** [read_requirements]: [os.path.isfile] holds of the paths that name a
    file; the file is read in text mode, and a file that cannot be opened
    or does not decode raises. *)
Definition read_requirements (X : externals) (requirements_path : list N)
    : M (list N) :=
  fun w =>
    match files w !! locate X requirements_path with
    | Some (Text s) =>
        (Ok (universal_newlines s), log (Read requirements_path) w)
    | Some (Undecodable why) =>
        (Raise (Exn.Raised Exn.UnicodeDecodeError why), w)
    | Some (Unreadable e) => (Raise (io_exn e), w)
    | None => (Ok requirements_path, w)
    end.

(** The command line as [argparse] sees it: a request for help, a line it
    refuses (an unknown argument, an option without its value), or the
    values given to the three options of [parse_arguments], [None] for an
    option that is absent. *)
Inductive command_line :=
  | HelpRequested
  | Refused
  | Options (requirements workspace key : option (list N)).

Record Namespace := {
  arg_requirements : list N;
  arg_workspace : list N;
  arg_api_key : option (list N)
}.

(** How the process ends: [main] returns, the process exits with a
    status, or an exception reaches the top. *)
Inductive outcome :=
  | Returned
  | Exited (status : Z)
  | Uncaught (e : Exn.t).

(** The exit status of the process: 0 after [main] returns; an uncaught
    exception prints a traceback and gives 1, 130 for an interrupt. *)
Definition exit_status (o : outcome) : Z :=
  match o with
  | Returned => 0%Z
  | Exited n => n
  | Uncaught e =>
      if Exn.isinstance e Exn.KeyboardInterrupt then 130%Z else 1%Z
  end.

(** [parse_arguments]: [--requirements] is required, [--workspace]
    defaults to ["coding_workspace"], [--api-key] is optional; [argparse]
    exits with 0 after printing the help and with 2 on a line it refuses. *)
Definition parse_arguments (cl : command_line) : Namespace + Z :=
  match cl with
  | HelpRequested => inr 0%Z
  | Refused => inr 2%Z
  | Options None _ _ => inr 2%Z
  | Options (Some r) w k =>
      inl {| arg_requirements := r;
             arg_workspace := default (lit "coding_workspace") w;
             arg_api_key := k |}
  end.

Definition MISSING_KEY : list N :=
  lit "Error: OpenRouter API key not provided. Use --api-key or set OPENROUTER_API_KEY environment variable.".

(** What [main] does once the arguments are parsed. *)
Definition main_with (X : externals) (args : Namespace) (w : world) : outcome * world :=
  match Py.or_else (arg_api_key args) (getenv X (lit "OPENROUTER_API_KEY")) with
  | Some (c :: key') =>
      match read_requirements X (arg_requirements args) w with
      | (Raise e, w1) => (Uncaught e, w1)
      | (Ok requirements, w1) =>
          match ProjectManager_init (arg_workspace args) (c :: key') w1 with
          | (Raise e, w2) => (Uncaught e, w2)
          | (Ok manager, w2) =>
              match create_project X manager requirements w2 with
              | (Raise e, w3) => (Uncaught e, w3)
              | (Ok _, w3) => (Returned, w3)
              end
          end
      end
  | _ => (Exited 1, log (Print (PStr MISSING_KEY)) w)
  end.

(** [main] *)
Definition main (X : externals) (cl : command_line) (w : world) : outcome * world :=
  match parse_arguments cl with
  | inr status => (Exited status, w)
  | inl args => main_with X args w
  end.

(** * The vocabulary of the specification *)

(** The events of a trace that change the disk. *)
Definition is_write (ev : event) : bool :=
  match ev with Write _ _ | Makedirs _ => true | _ => false end.

(** The text of [s] before the leftmost occurrence of [sep], all of [s]
    when there is none: what [s.split(sep)[0]] is. *)
Fixpoint before (sep s : list N) : list N :=
  if startswith sep s then []
  else match s with
       | [] => []
       | c :: s' => c :: before sep s'
       end.

(** In the words of the specification: the response has a fenced block when
    some non-empty segment of its split on the opening marker contains a
    closing fence. *)
Definition has_fenced_block (response : list N) : bool :=
  match split FENCE_PYTHON response with
  | Some segments =>
      existsb (fun seg => truthy seg && contains FENCE seg) segments
  | None => false
  end.

Definition NO_CODE : Exn.t :=
  Exn.Raised Exn.ValueError (lit "No code was generated").

(** In the words of the specification: the first non-empty segment that
    contains a closing fence. *)
Fixpoint first_fenced (segments : list (list N)) : option (list N) :=
  match segments with
  | [] => None
  | seg :: rest =>
      if truthy seg && contains FENCE seg then Some seg else first_fenced rest
  end.

(** In the words of the specification: split on the opening marker, take
    the first non-empty segment that contains a closing fence, return its
    text before the closing fence, trimmed. *)
Definition extract_in_words (response : list N) : result (list N) :=
  match split FENCE_PYTHON response with
  | Some segments =>
      match first_fenced segments with
      | Some seg => Ok (strip (before FENCE seg))
      | None => Raise NO_CODE
      end
  | None => Raise (Exn.Raised Exn.ValueError (lit "empty separator"))
  end.

(** The exception [generate_response] raises in place of [e]. *)
Definition failure {A} (e : Exn.t) : result A :=
  Raise (Exn.Raised Exn.Exception (lit "Error generating response: " ++ Exn.text e)).

(** The statuses [raise_for_status] raises on. *)
Definition error_status (r : response) : bool :=
  ((400 <=? status_code r) && (status_code r <? 600))%Z.

(** The statuses of success, 200 to 299. *)
Definition success_status (r : response) : bool :=
  ((200 <=? status_code r) && (status_code r <? 300))%Z.

(** The n-th request, [req], is answered, and the answer carries [v] as
    the content of its first choice. *)
Definition answers (X : externals) (n : nat) (req : request) (v : pyval) : Prop :=
  exists r, requests_post X n req = Ok r
            /\ error_status r = false
            /\ first_choice_content r = Ok v.

(** The system message of a role. *)
Definition system_message (role : list N) : pyval :=
  default PNone (Py.dict_get system_messages role).

(** The request [get_llm_response] sends for a role and a prompt. *)
Definition llm_request (self : CodeProject) (role prompt : list N) : request :=
  request_of (llm self) (messages_for (system_message role) prompt).

Definition CODE_WRITER : list N := lit "code_writer".
Definition CODE_REVIEWER : list N := lit "code_reviewer".
Definition TEST_WRITER : list N := lit "test_writer".

Definition INVALID_CODE : Exn.t :=
  Exn.Raised Exn.ValueError (lit "Generated code is not valid Python").

(** The paths of the two files of the workspace. *)
Definition main_path (self : CodeProject) : list N :=
  Py.path_join (workspace_dir self) MAIN_PY.
Definition test_path (self : CodeProject) : list N :=
  Py.path_join (workspace_dir self) TEST_MAIN_PY.

(** The files these paths name. *)
Definition main_file (X : externals) (self : CodeProject) : list N :=
  locate X (main_path self).
Definition test_file (X : externals) (self : CodeProject) : list N :=
  locate X (test_path self).

(** In the world [w] the operating system lets [write_code_to_file] do its
    work: the call of [os.makedirs] returns, and then the file is opened and
    the text written. *)
Definition persists (X : externals) (self : CodeProject)
    (filename code : list N) (w : world) : Prop :=
  os_makedirs X (trace w) (workspace_dir self) = None
  /\ open_write X (trace (made (workspace_dir self) w))
       (Py.path_join (workspace_dir self) filename) code = Written.

(** In the world [w] the standard output takes the value. *)
Definition shows (X : externals) (v : pyval) (w : world) : Prop :=
  stdout_write X (trace w) v = None.

(** A path lies in the directory [dir]: it starts with [dir] and a
    slash. *)
Definition inside (dir path : list N) : bool :=
  startswith (Py.path_join dir []) path.

(** The world of a run that has asked for the code. *)
Definition asked (self : CodeProject) (requirements : list N) (w : world) : world :=
  sent (llm_request self CODE_WRITER (writer_prompt requirements)) w.

(** The world of a run that has asked for the review and printed its
    heading, the main file being written. *)
Definition announced (X : externals) (self : CodeProject)
    (requirements code : list N) (w : world) : world :=
  log (Print (PStr ([10] ++ lit "Code Review:")))
    (sent (llm_request self CODE_REVIEWER (review_prompt code))
      (written X (main_path self) code
        (made (workspace_dir self) (asked self requirements w)))).

(** The world of a run that has printed the review and asked for the
    tests, the test file not yet written. *)
Definition reviewed (X : externals) (self : CodeProject)
    (requirements code : list N) (review : pyval) (w : world) : world :=
  sent (llm_request self TEST_WRITER (test_prompt code))
    (log (Print review) (announced X self requirements code w)).

(** The world after a run of [generate_project] in which every step
    succeeds: the test file is written last. *)
Definition generated (X : externals) (self : CodeProject)
    (requirements code : list N) (review : pyval) (test_code : list N)
    (w : world) : world :=
  written X (test_path self) test_code
    (made (workspace_dir self) (reviewed X self requirements code review w)).

(** The externals fail with instances of [Exception] only: no interrupt
    reaches the script through them. *)
Definition raises_exceptions_only (X : externals) : Prop :=
  (forall n req e, requests_post X n req = Raise e ->
     Exn.isinstance e Exn.Exception = true)
  /\ (forall n req r e, requests_post X n req = Ok r -> json_body r = Raise e ->
     Exn.isinstance e Exn.Exception = true)
  /\ (forall code e, ast_parse X code = Raise e ->
     Exn.isinstance e Exn.Exception = true)
  /\ (forall args fs e, fst (pytest_main X args fs) = Raise e ->
     Exn.isinstance e Exn.Exception = true).

(** A computation that raises instances of [Exception] only. *)
Definition only_exceptions {A} (m : M A) : Prop :=
  forall w e w', m w = (Raise e, w') -> Exn.isinstance e Exn.Exception = true.

Definition API_KEY_VAR : list N := lit "OPENROUTER_API_KEY".

(** The credential [main] resolves: the flag, else the variable. *)
Definition credential (X : externals) (args : Namespace) : option (list N) :=
  Py.or_else (arg_api_key args) (getenv X API_KEY_VAR).

Definition COMPLETED : list N := [10] ++ lit "Project generation completed!".

(** The world in which [create_project] starts its work: the objects are
    built and the first line is printed. *)
Definition started (w : world) : world :=
  log (Print (PStr (lit "Generating project...")))
    (log (Construct (lit "OpenRouterLLM"))
      (log (Construct (lit "CodeProject"))
        (log (Construct (lit "ProjectManager")) w))).

(** The project [main] builds. *)
Definition project_of (args : Namespace) (key : list N) : CodeProject :=
  {| workspace_dir := arg_workspace args;
     llm := {| api_key := key;
               base_url := lit "https://openrouter.ai/api/v1/chat/completions" |} |}.

(** The character behind the closing fence is neither a backtick nor the
    [p] of [python]: the closing fence is no part of an opening marker. *)
Definition closes (post : list N) : Prop :=
  forall c, head post = Some c -> c <> 96 /\ c <> 112.

(** How far a run of [generate_project] got when it ended. *)
Inductive stage :=
  | Asked
  | MainDirMade
  | MainSpoiled (remains : list N)
  | ReviewAsked (code : list N)
  | ReviewAnnounced (code : list N)
  | TestsAsked (code : list N) (review : pyval)
  | TestDirMade (code : list N) (review : pyval)
  | TestSpoiled (code : list N) (review : pyval) (remains : list N)
  | Finished (code : list N) (review : pyval) (test_code : list N).

(** The world a run that ended at a stage leaves. *)
Definition stage_world (X : externals) (self : CodeProject)
    (requirements : list N) (w : world) (s : stage) : world :=
  match s with
  | Asked => asked self requirements w
  | MainDirMade => made (workspace_dir self) (asked self requirements w)
  | MainSpoiled remains =>
      spoiled X (main_path self) remains
        (made (workspace_dir self) (asked self requirements w))
  | ReviewAsked code =>
      sent (llm_request self CODE_REVIEWER (review_prompt code))
        (written X (main_path self) code
           (made (workspace_dir self) (asked self requirements w)))
  | ReviewAnnounced code => announced X self requirements code w
  | TestsAsked code review => reviewed X self requirements code review w
  | TestDirMade code review =>
      made (workspace_dir self) (reviewed X self requirements code review w)
  | TestSpoiled code review remains =>
      spoiled X (test_path self) remains
        (made (workspace_dir self) (reviewed X self requirements code review w))
  | Finished code review test_code =>
      generated X self requirements code review test_code w
  end.

Definition finished (s : stage) : bool :=
  match s with Finished _ _ _ => true | _ => false end.

Definition is_ok {A} (r : result A) : bool :=
  match r with Ok _ => true | Raise _ => false end.

(** The effects of a run of [generate_project] in which every step
    succeeds, in order. *)
Definition pipeline (self : CodeProject) (requirements code : list N)
    (review : pyval) (test_code : list N) : list event :=
  [ Post (llm_request self CODE_WRITER (writer_prompt requirements));
    Makedirs (workspace_dir self);
    Write (main_path self) code;
    Post (llm_request self CODE_REVIEWER (review_prompt code));
    Print (PStr ([10] ++ lit "Code Review:"));
    Print review;
    Post (llm_request self TEST_WRITER (test_prompt code));
    Makedirs (workspace_dir self);
    Write (test_path self) test_code ].

(** A request of the client [self]: to its endpoint, with its key as the
    bearer token. *)
Definition request_by (self : OpenRouterLLM) (ev : event) : Prop :=
  match ev with
  | Post req =>
      req_url req = base_url self
      /\ req_authorization req = lit "Bearer " ++ api_key self
  | _ => True
  end.

(** A call that names nothing on the disk but the workspace, which
    [os.makedirs] makes with its missing parents, and its two files. *)
Definition touches_only (self : CodeProject) (ev : event) : Prop :=
  match ev with
  | Makedirs path => path = workspace_dir self
  | Write path _ => path = main_path self \/ path = test_path self
  | _ => True
  end.

(** The arguments of the test runner. *)
Definition pytest_args (self : CodeProject) : list (list N) :=
  [test_path self; lit "-v"].

(** A request [main] may send for a command line: the arguments parse, a
    credential is resolved, and the request goes to the endpoint with that
    credential as bearer token. Other events are not restricted. *)
Definition authorised (X : externals) (cl : command_line) (ev : event) : Prop :=
  match ev with
  | Post req =>
      exists args c key,
        parse_arguments cl = inl args
        /\ credential X args = Some (c :: key)
        /\ req_url req = lit "https://openrouter.ai/api/v1/chat/completions"
        /\ req_authorization req = lit "Bearer " ++ c :: key
  | _ => True
  end.

(** * Scenarios

    Stand-ins for the externals, to run the script on: a service that
    answers from a script, a parser that only matches parentheses, a test
    runner that passes and leaves the files alone, an operating system that
    refuses nothing. *)

Definition ENDPOINT : list N := lit "https://openrouter.ai/api/v1/chat/completions".

(** An answer of the service with [content] in its first choice. *)
Definition reply_with (status : Z) (content : pyval) : result response :=
  Ok {| status_code := status;
        reason := lit "OK";
        resp_url := ENDPOINT;
        json_body :=
          Ok (PDict [ (lit "choices",
                       PList [ PDict [ (lit "message",
                                        PDict [ (lit "role", PStr (lit "assistant"));
                                                (lit "content", content) ]) ] ]) ]) |}.

Definition reply (content : pyval) : result response := reply_with 200 content.

Definition scripted (replies : list (result response)) (n : nat) (_ : request)
  : result response :=
  match replies !! n with
  | Some r => r
  | None => Raise (Exn.Raised Exn.ConnectionError (lit "Connection refused"))
  end.

Fixpoint parens_match (depth : nat) (s : list N) : bool :=
  match s with
  | [] => match depth with O => true | S _ => false end
  | c :: s' =>
      if c =? 40 then parens_match (S depth) s'
      else if c =? 41 then
             match depth with O => false | S d => parens_match d s' end
      else parens_match depth s'
  end.

Definition paren_parse (code : list N) : result unit :=
  if parens_match 0 code then Ok tt
  else Raise (Exn.Raised Exn.SyntaxError (lit "'(' was never closed")).

(** A disk that knows a file by its path without the [./] in front. *)
Fixpoint skip_dot (path : list N) : list N :=
  match path with
  | c :: d :: path' => if (c =? 46) && (d =? 47) then skip_dot path' else path
  | _ => path
  end.

Definition demo (key : option (list N)) (replies : list (result response)) : externals :=
  {| getenv := fun _ => key;
     locate := skip_dot;
     requests_post := scripted replies;
     ast_parse := paren_parse;
     pytest_main := fun _ fs => (Ok 0%Z, fs);
     os_makedirs := fun _ _ => None;
     open_write := fun _ _ _ => Written;
     stdout_write := fun _ _ => None |}.

Definition demo_args : Namespace :=
  {| arg_requirements := lit "add two numbers";
     arg_workspace := lit "ws";
     arg_api_key := Some (lit "sk-test") |}.

Definition demo_project : CodeProject := project_of demo_args (lit "sk-test").

Definition good_replies : list (result response) :=
  [ reply (PStr (lit "Here is the code:" ++ fenced (lit "x = 1")));
    reply (PStr (lit "Looks fine."));
    reply (PStr (lit "The tests:" ++ fenced (lit "assert True"))) ].

Definition bad_replies : list (result response) :=
  [ reply (PStr (lit "Here is the code:" ++ fenced (lit "x = (")));
    reply (PStr (lit "Looks fine."));
    reply (PStr (lit "The tests:" ++ fenced (lit "assert True"))) ].

Definition empty_world : world := World ∅ 0 [].

(** A workspace that already holds a file of the user. *)
Definition NOTES : list N := lit "ws/notes.txt".
Definition used_world : world :=
  World {[ NOTES := Text (lit "keep") ]} 0 [].

(** A requirements file that is not text. *)
Definition BAD_BYTE : list N :=
  lit "'utf-8' codec can't decode byte 0xff in position 0: invalid start byte".
Definition binary_world : world :=
  World {[ lit "reqs.bin" := Undecodable BAD_BYTE ]} 0 [].

(** A requirements file. *)
Definition reqs_world : world :=
  World {[ lit "reqs.txt" := Text (lit "add two numbers") ]} 0 [].

(** A requirements file with the line ends of DOS. *)
Definition dos_world : world :=
  World {[ lit "reqs.txt" := Text (lit "add" ++ [13; 10] ++ lit "two numbers") ]}
        0 [].

Definition REQS : list N := lit "add two numbers".
Definition GOOD_ANSWER : list N := lit "Here is the code:" ++ fenced (lit "x = 1").
Definition BAD_ANSWER : list N := lit "Here is the code:" ++ fenced (lit "x = (").
Definition TESTS_ANSWER : list N := lit "The tests:" ++ fenced (lit "assert True").

Definition demo_client : OpenRouterLLM := llm demo_project.
Definition demo_messages : pyval :=
  messages_for (system_message CODE_WRITER) (writer_prompt REQS).

(** The stand-ins again, with a test runner that ends as told. *)
Definition demo_runner (ran : result Z) (key : option (list N))
    (replies : list (result response)) : externals :=
  {| getenv := fun _ => key;
     locate := skip_dot;
     requests_post := scripted replies;
     ast_parse := paren_parse;
     pytest_main := fun _ fs => (ran, fs);
     os_makedirs := fun _ _ => None;
     open_write := fun _ _ _ => Written;
     stdout_write := fun _ _ => None |}.

(** An operating system that refuses: [a] is a file, so no directory can
    be made below it, and no lone surrogate is encoded, neither to a file
    nor to the standard output. *)
Definition is_surrogate (c : N) : bool := (55296 <=? c) && (c <=? 57343).

Definition NOT_A_DIRECTORY : io_error :=
  IoError IoNotADirectory (lit "[Errno 20] Not a directory: 'a/b'").

Definition NOT_ENCODABLE : io_error :=
  IoError IoEncode
    (lit "'utf-8' codec can't encode character '\ud83d' in position 0: surrogates not allowed").

Definition strict (replies : list (result response)) : externals :=
  {| getenv := fun _ => None;
     locate := skip_dot;
     requests_post := scripted replies;
     ast_parse := paren_parse;
     pytest_main := fun _ fs => (Ok 0%Z, fs);
     os_makedirs := fun _ path =>
       if startswith (lit "a/") path then Some NOT_A_DIRECTORY else None;
     open_write := fun _ _ code =>
       if existsb is_surrogate code then WriteFailed NOT_ENCODABLE [] else Written;
     stdout_write := fun _ v =>
       match v with
       | PStr s => if existsb is_surrogate s then Some NOT_ENCODABLE else None
       | _ => None
       end |}.

(** A project whose workspace lies below the file [a]. *)
Definition blocked_project : CodeProject :=
  project_of {| arg_requirements := lit "add two numbers";
                arg_workspace := lit "a/b";
                arg_api_key := None |} (lit "sk-test").

(** A review that is one lone surrogate. *)
Definition surrogate_replies : list (result response) :=
  [ reply (PStr (lit "Here is the code:" ++ fenced (lit "x = 1")));
    reply (PStr [55357]);
    reply (PStr (lit "The tests:" ++ fenced (lit "assert True"))) ].

Definition INTERRUPT : Exn.t := Exn.Raised Exn.KeyboardInterrupt [].

Definition RUNNER_CRASH : Exn.t :=
  Exn.Raised Exn.OSError (lit "cannot start the test session").

Definition demo_line : command_line :=
  Options (Some REQS) (Some (lit "ws")) (Some (lit "sk-test")).

(** An answer with no choice in it. *)
Definition no_choices : result response :=
  Ok {| status_code := 200;
        reason := lit "OK";
        resp_url := ENDPOINT;
        json_body := Ok (PDict [ (lit "choices", PList []) ]) |}.

Definition sample_response : list N :=
  lit "Here you go:" ++ [10] ++ lit "```python" ++ [10]
    ++ lit "x = 1" ++ [10] ++ lit "```" ++ [10].

(** A response whose code block follows an untagged block: the text in
    front of the first untagged fence comes back, not the code. *)
Definition untagged_first : list N :=
  lit "Output:" ++ [10] ++ lit "```" ++ [10] ++ lit "hi" ++ [10] ++ lit "```"
    ++ [10] ++ lit "Code:" ++ [10] ++ lit "```python" ++ [10]
    ++ lit "print('hi')" ++ [10] ++ lit "```" ++ [10].

(** * Properties of the string functions *)

Section Strings.

Implicit Types (s p sub sep cur : list N) (c : N).

Lemma startswith_iff p s : startswith p s = true <-> exists b, s = p ++ b.
Proof.
  revert s. induction p as [|a p IH]; intros s; simpl.
  - split; [eauto | done].
  - destruct s as [|b s]; simpl.
    + split; [done | intros [? ?]; done].
    + rewrite andb_true_iff, N.eqb_eq, IH. split.
      * intros [-> [t ->]]. eauto.
      * intros [t Ht]. injection Ht as -> ->. eauto.
Qed.

Lemma find_unfold sub s :
  find sub s = if startswith sub s then Some O
               else match s with [] => None | _ :: s' => S <$> find sub s' end.
Proof. destruct s; reflexivity. Qed.

Lemma contains_iff sub s :
  contains sub s = true <-> exists a b, s = a ++ sub ++ b.
Proof.
  unfold contains. induction s as [|c s IH].
  - rewrite find_unfold. destruct (startswith sub []) eqn:E.
    + split; [intros _ | done]. apply startswith_iff in E as [b Hb].
      exists [], b. done.
    + split; [done |]. intros (a & b & H). exfalso.
      destruct a; [| done]. simpl in H.
      assert (startswith sub [] = true) by (apply startswith_iff; eauto).
      congruence.
  - rewrite find_unfold. destruct (startswith sub (c :: s)) eqn:E.
    + split; [intros _ | done]. apply startswith_iff in E as [b Hb].
      exists [], b. done.
    + destruct (find sub s) eqn:F; simpl.
      * split; [intros _ | done]. destruct IH as [IH _].
        destruct (IH eq_refl) as (a & b & ->). exists (c :: a), b. done.
      * split; [done |]. intros (a & b & H). destruct a as [|a0 a].
        -- simpl in H. assert (startswith sub (c :: s) = true)
             by (apply startswith_iff; eauto). congruence.
        -- injection H as -> ->. destruct IH as [_ IH].
           discriminate IH. eauto.
Qed.

Lemma contains_false_sub sub s a t b :
  contains sub s = false -> s = a ++ t ++ b -> contains sub t = false.
Proof.
  intros Hs ->. destruct (contains sub t) eqn:E; [| done].
  apply contains_iff in E as (x & y & ->).
  assert (contains sub (a ++ (x ++ sub ++ y) ++ b) = true); [| congruence].
  apply contains_iff. exists (a ++ x), (y ++ b). by rewrite <- !app_assoc.
Qed.

Lemma before_prefix sep s : exists u, s = before sep s ++ u.
Proof.
  induction s as [|c s [u IH]]; simpl.
  - destruct (startswith sep []); by exists [].
  - destruct (startswith sep (c :: s)); [by exists (c :: s) |].
    exists u. simpl. by rewrite <- IH.
Qed.

Lemma before_no_sep sep s : sep <> [] -> contains sep (before sep s) = false.
Proof.
  intros Hsep. induction s as [|c s IH].
  - simpl. destruct sep; [done |]. reflexivity.
  - simpl. destruct (startswith sep (c :: s)) eqn:E.
    + destruct sep; [done |]. reflexivity.
    + unfold contains in *. rewrite find_unfold.
      destruct (startswith sep (c :: before sep s)) eqn:E'.
      * exfalso. apply startswith_iff in E' as [b Hb].
        destruct (before_prefix sep s) as [u Hu].
        assert (startswith sep (c :: s) = true); [| congruence].
        apply startswith_iff. exists (b ++ u).
        rewrite app_assoc, <- Hb. simpl. by rewrite <- Hu.
      * destruct (find sep (before sep s)); done.
Qed.

Lemma split_go_head sep cur s :
  sep <> [] ->
  exists rest, split_go sep 0 cur s = (rev cur ++ before sep s) :: rest.
Proof.
  intros Hsep. revert cur. induction s as [|c s IH]; intros cur.
  - simpl. destruct sep; [done |]. simpl. exists []. by rewrite app_nil_r.
  - simpl split_go. simpl before.
    destruct (startswith sep (c :: s)).
    + eexists. by rewrite app_nil_r.
    + destruct (IH (c :: cur)) as [rest ->]. exists rest.
      simpl. by rewrite <- app_assoc.
Qed.

Lemma split_head sep s :
  sep <> [] -> exists rest, split sep s = Some (before sep s :: rest).
Proof.
  intros Hsep. destruct (split_go_head sep [] s Hsep) as [rest H].
  exists rest. unfold split. destruct sep; [done |]. by rewrite H.
Qed.

Lemma lstrip_suffix s : exists a, s = a ++ lstrip s.
Proof.
  induction s as [|c s [a IH]]; simpl; [by exists [] |].
  destruct (isspace c); [| by exists []].
  exists (c :: a). simpl. by rewrite <- IH.
Qed.

Lemma rstrip_prefix s : exists b, s = rstrip s ++ b.
Proof.
  unfold rstrip. destruct (lstrip_suffix (rev s)) as [a H].
  exists (rev a). rewrite <- rev_app_distr, <- H. by rewrite rev_involutive.
Qed.

Lemma lstrip_head s c : head (lstrip s) = Some c -> isspace c = false.
Proof.
  induction s as [|d s IH]; simpl; [done |].
  destruct (isspace d) eqn:E; [done |]. simpl. congruence.
Qed.

Lemma lstrip_keeps s c : In c s -> isspace c = false -> lstrip s <> [].
Proof.
  induction s as [|d s IH]; simpl; [done |].
  intros [-> | Hin] Hc.
  - by rewrite Hc.
  - destruct (isspace d); [auto | done].
Qed.

Lemma lstrip_In s c : In c s -> isspace c = false -> In c (lstrip s).
Proof.
  induction s as [|d s IH]; simpl; [done |].
  intros [-> | Hin] Hc.
  - rewrite Hc. by left.
  - destruct (isspace d); [auto | by right].
Qed.

Lemma strip_keeps s c : In c s -> isspace c = false -> strip s <> [].
Proof.
  intros Hin Hc. unfold strip, rstrip.
  assert (In c (lstrip (rev (lstrip s)))) as H.
  { apply lstrip_In; [| done]. apply in_rev. rewrite rev_involutive.
    by apply lstrip_In. }
  intros E. apply (f_equal (@rev N)) in E. rewrite rev_involutive in E.
  simpl in E. rewrite E in H. done.
Qed.

Lemma strip_head s c : head (strip s) = Some c -> isspace c = false.
Proof.
  unfold strip. destruct (rstrip_prefix (lstrip s)) as [b Hb].
  intros H. apply (lstrip_head s). rewrite Hb.
  destruct (rstrip (lstrip s)); [done |]. exact H.
Qed.

Lemma strip_last s c : last (strip s) = Some c -> isspace c = false.
Proof.
  unfold strip, rstrip. pose proof (last_reverse (lstrip (rev (lstrip s)))) as E.
  unfold reverse in E. rewrite <- rev_alt in E. rewrite E. apply lstrip_head.
Qed.

Lemma strip_sub s : exists a b, s = a ++ strip s ++ b.
Proof.
  unfold strip. destruct (lstrip_suffix s) as [a Ha].
  destruct (rstrip_prefix (lstrip s)) as [b Hb].
  exists a, b. by rewrite <- Hb.
Qed.

Lemma fence_has_backtick s : contains FENCE s = true -> In 96 s.
Proof.
  intros H. apply contains_iff in H as (a & b & ->).
  apply in_or_app. right. by left.
Qed.

(** A segment that holds a fence is not blank: the first test of the
    filter never decides. *)
Lemma is_code_block_fence s :
  is_code_block s = truthy s && contains FENCE s.
Proof.
  unfold is_code_block. destruct (contains FENCE s) eqn:E.
  - apply fence_has_backtick in E.
    pose proof (strip_keeps s 96 E eq_refl).
    destruct (strip s); [done |]. destruct s; done.
  - by rewrite !andb_false_r.
Qed.

End Strings.

(** * Code extraction *)

Section Extraction.

Implicit Types (response code block : list N).

Lemma first_block_code_eq block :
  first_block_code block = Ok (strip (before FENCE block)).
Proof.
  unfold first_block_code.
  destruct (split_head FENCE block) as [rest ->]; done.
Qed.

(** The function in one equation: the first segment that passes the filter,
    cut at its first fence and trimmed. *)
Lemma extract_code_from_response_eq response :
  extract_code_from_response response =
  match code_blocks (split_go FENCE_PYTHON 0 [] response) with
  | [] => Raise NO_CODE
  | block :: _ => Ok (strip (before FENCE block))
  end.
Proof.
  unfold extract_code_from_response.
  change (split FENCE_PYTHON response)
    with (Some (split_go FENCE_PYTHON 0 [] response)).
  cbv beta iota.
  destruct (code_blocks _); [done |]. apply first_block_code_eq.
Qed.

Lemma code_blocks_nil (segments : list (list N)) :
  code_blocks segments = [] <->
  existsb (fun seg => truthy seg && contains FENCE seg) segments = false.
Proof.
  unfold code_blocks.
  induction segments as [|seg segments IH]; simpl; [done |].
  rewrite filter_cons, <- is_code_block_fence.
  destruct (decide (is_code_block seg = true)) as [E | E].
  - rewrite E. simpl. split; done.
  - apply not_true_is_false in E. rewrite E. simpl. exact IH.
Qed.

(** C2. [extract_code_from_response] raises the content-missing error
    (ValueError "No code was generated") exactly when the response has no
    fenced block, that is no non-empty segment of its split on the opening
    marker that contains a closing fence; on every other response it
    returns a string. *)
Theorem extract_raises_iff_no_fenced_block response :
  (extract_code_from_response response = Raise NO_CODE
     <-> has_fenced_block response = false)
  /\ ((exists code, extract_code_from_response response = Ok code)
     <-> has_fenced_block response = true)
  /\ (forall e, extract_code_from_response response = Raise e -> e = NO_CODE).
Proof.
  rewrite extract_code_from_response_eq. unfold has_fenced_block.
  change (split FENCE_PYTHON response)
    with (Some (split_go FENCE_PYTHON 0 [] response)).
  cbv beta iota.
  pose proof (code_blocks_nil (split_go FENCE_PYTHON 0 [] response)) as H.
  destruct (code_blocks _) as [|block blocks].
  - destruct H as [H _]. rewrite (H eq_refl). repeat split; try done.
    + intros [code ?]. done.
    + congruence.
  - destruct (existsb _ _).
    + repeat split; try done. eauto.
    + destruct H as [_ H]. discriminate (H eq_refl).
Qed.

(** C10. Whatever [extract_code_from_response] returns holds no fence and
    neither starts nor ends with a whitespace character. *)
Theorem extract_result_clean response code :
  extract_code_from_response response = Ok code ->
  contains FENCE code = false
  /\ (forall c, head code = Some c -> isspace c = false)
  /\ (forall c, last code = Some c -> isspace c = false).
Proof.
  rewrite extract_code_from_response_eq.
  destruct (code_blocks _) as [|block blocks]; [done |].
  intros [= <-]. split; [| split].
  - destruct (strip_sub (before FENCE block)) as (a & b & H).
    eapply contains_false_sub; [| exact H].
    by apply before_no_sep.
  - apply strip_head.
  - apply strip_last.
Qed.

Lemma extract_result_clean_witness :
  extract_code_from_response sample_response = Ok (lit "x = 1")
  /\ contains FENCE (lit "x = 1") = false
  /\ (forall c, head (lit "x = 1") = Some c -> isspace c = false)
  /\ (forall c, last (lit "x = 1") = Some c -> isspace c = false).
Proof.
  split; [reflexivity |].
  apply (extract_result_clean sample_response (lit "x = 1")). reflexivity.
Defined.

Lemma code_blocks_first (segments : list (list N)) :
  head (code_blocks segments) = first_fenced segments.
Proof.
  unfold code_blocks.
  induction segments as [|seg segments IH]; simpl; [done |].
  rewrite filter_cons, <- is_code_block_fence.
  destruct (decide (is_code_block seg = true)) as [E | E].
  - by rewrite E.
  - apply not_true_is_false in E. by rewrite E.
Qed.

Lemma extract_code_from_response_in_words response :
  extract_code_from_response response = extract_in_words response.
Proof.
  rewrite extract_code_from_response_eq. unfold extract_in_words.
  change (split FENCE_PYTHON response)
    with (Some (split_go FENCE_PYTHON 0 [] response)).
  cbv beta iota. rewrite <- code_blocks_first.
  by destruct (code_blocks _).
Qed.

(** C1. [extract_code_from_response] is the second description of the
    claim: the first non-empty segment of the split on the opening marker
    that holds a fence, cut at that fence and trimmed. That is not always
    the text between the fences of the python block: on a response with an
    untagged fenced block in front of it, the prose before the first fence
    comes back, although the response has one opening marker only, followed
    by [print('hi')] and a closing fence. *)
Theorem extract_untagged_first :
  (forall response,
     extract_code_from_response response = extract_in_words response)
  /\ untagged_first
     = (lit "Output:" ++ [10] ++ lit "```" ++ [10] ++ lit "hi" ++ [10]
          ++ lit "```" ++ [10] ++ lit "Code:" ++ [10])
         ++ FENCE_PYTHON ++ ([10] ++ lit "print('hi')" ++ [10]) ++ FENCE ++ [10]
  /\ split FENCE_PYTHON untagged_first
     = Some [ lit "Output:" ++ [10] ++ lit "```" ++ [10] ++ lit "hi" ++ [10]
                ++ lit "```" ++ [10] ++ lit "Code:" ++ [10];
              [10] ++ lit "print('hi')" ++ [10] ++ lit "```" ++ [10] ]
  /\ strip ([10] ++ lit "print('hi')" ++ [10]) = lit "print('hi')"
  /\ extract_code_from_response untagged_first = Ok (lit "Output:").
Proof.
  split; [exact extract_code_from_response_in_words |]. repeat split.
Qed.

End Extraction.

(** * The client *)

Section Client.

Context (X : externals).
Implicit Types (self : OpenRouterLLM) (messages : pyval) (w : world).

Lemma raise_for_status_error r :
  error_status r = true ->
  exists e, raise_for_status r = Raise e /\ Exn.class e = Exn.HTTPError.
Proof.
  unfold error_status, raise_for_status. intros H.
  destruct ((400 <=? status_code r) && (status_code r <? 500))%Z eqn:E1.
  - eexists. split; reflexivity.
  - destruct ((500 <=? status_code r) && (status_code r <? 600))%Z eqn:E2.
    + eexists. split; reflexivity.
    + exfalso. lia.
Qed.

Lemma raise_for_status_ok r :
  error_status r = false -> raise_for_status r = Ok tt.
Proof.
  unfold error_status, raise_for_status. intros H.
  destruct ((400 <=? status_code r) && (status_code r <? 500))%Z eqn:E1;
    [exfalso; lia |].
  destruct ((500 <=? status_code r) && (status_code r <? 600))%Z eqn:E2;
    [exfalso; lia | reflexivity].
Qed.

(** Subscripting fails with a [KeyError], an [IndexError] or a
    [TypeError], which [except Exception] catches. *)
Lemma getitem_str_raises v k e :
  Py.getitem_str v k = Raise e -> Exn.isinstance e Exn.Exception = true.
Proof.
  destruct v; simpl; try (intros [= <-]; reflexivity).
  destruct (Py.dict_get d k); [done |]. intros [= <-]. reflexivity.
Qed.

Lemma getitem_int_raises v i e :
  Py.getitem_int v i = Raise e -> Exn.isinstance e Exn.Exception = true.
Proof.
  destruct v; simpl; try (intros [= <-]; reflexivity).
  - destruct (Py.index s i); [done |]. intros [= <-]. reflexivity.
  - destruct (Py.index l i); [done |]. intros [= <-]. reflexivity.
Qed.

(** A body that parsed but lacks the path to the content fails with an
    exception of the subscripting. *)
Lemma first_choice_content_raises r body e :
  json_body r = Ok body -> first_choice_content r = Raise e ->
  Exn.isinstance e Exn.Exception = true.
Proof.
  unfold first_choice_content. intros ->.
  destruct (Py.getitem_str body _) as [choices|e1] eqn:E1;
    [| intros [= <-]; eapply getitem_str_raises; eauto].
  destruct (Py.getitem_int choices 0) as [choice|e2] eqn:E2;
    [| intros [= <-]; eapply getitem_int_raises; eauto].
  destruct (Py.getitem_str choice _) as [message|e3] eqn:E3;
    [| intros [= <-]; eapply getitem_str_raises; eauto].
  apply getitem_str_raises.
Qed.

(** A body without [choices], a first choice without [message], a message
    without [content]: each is a [KeyError]. *)
Lemma first_choice_content_missing r d :
  json_body r = Ok (PDict d) -> Py.dict_get d (lit "choices") = None ->
  first_choice_content r = Raise (Exn.Raised Exn.KeyError (lit "'choices'")).
Proof.
  unfold first_choice_content. intros -> H. unfold Py.getitem_str.
  rewrite H. reflexivity.
Qed.

Lemma generate_response_try_eq self messages w :
  generate_response_try X self messages w =
  (match requests_post X (posts w) (request_of self messages) with
   | Raise e => Raise e
   | Ok r => match raise_for_status r with
             | Raise e => Raise e
             | Ok _ => first_choice_content r
             end
   end, sent (request_of self messages) w).
Proof.
  unfold generate_response_try, bind, post, lift.
  destruct (requests_post X _ _) as [r|e]; [| done].
  destruct (raise_for_status r); done.
Qed.

(** The function in one equation: what comes back for each answer of the
    service, after exactly one request. *)
Lemma generate_response_eq self messages w :
  generate_response X self messages w =
  (match requests_post X (posts w) (request_of self messages) with
   | Raise e => if Exn.isinstance e Exn.Exception then failure e else Raise e
   | Ok r =>
       match raise_for_status r with
       | Raise e => failure e
       | Ok _ =>
           match first_choice_content r with
           | Ok v => Ok v
           | Raise e =>
               if Exn.isinstance e Exn.Exception then failure e else Raise e
           end
       end
   end, sent (request_of self messages) w).
Proof.
  unfold generate_response, try_except. rewrite generate_response_try_eq.
  destruct (requests_post X _ _) as [r|e].
  - destruct (error_status r) eqn:Hs.
    + destruct (raise_for_status_error r Hs) as (e & -> & Hc).
      unfold Exn.isinstance. rewrite Hc. reflexivity.
    + rewrite (raise_for_status_ok r Hs).
      destruct (first_choice_content r) as [v|e]; [done |].
      destruct (Exn.isinstance e Exn.Exception); done.
  - destruct (Exn.isinstance e Exn.Exception); done.
Qed.

(** The success case. *)
Lemma generate_response_answers self messages w v :
  answers X (posts w) (request_of self messages) v ->
  generate_response X self messages w = (Ok v, sent (request_of self messages) w).
Proof.
  intros (r & Hr & Hs & Hv).
  by rewrite generate_response_eq, Hr, (raise_for_status_ok r Hs), Hv.
Qed.

(** C8. [generate_response] sends one request and nothing else. It returns
    the content of the first choice of an answer whose status is not an
    error status. A transport error, a status from 400 to 599, a body that
    is not JSON and a body without the path to the content are each raised
    as one [Exception] whose text wraps the text of the failure; nothing is
    sent again and nothing is returned. *)
Theorem generate_response_spec self messages w :
  let req := request_of self messages in
  let out := generate_response X self messages w in
  snd out = sent req w
  /\ (forall r v, requests_post X (posts w) req = Ok r ->
        error_status r = false -> first_choice_content r = Ok v ->
        fst out = Ok v)
  /\ (forall e, requests_post X (posts w) req = Raise e ->
        Exn.isinstance e Exn.Exception = true -> fst out = failure e)
  /\ (forall r, requests_post X (posts w) req = Ok r ->
        error_status r = true ->
        exists e, raise_for_status r = Raise e /\ fst out = failure e)
  /\ (forall r e, requests_post X (posts w) req = Ok r ->
        error_status r = false -> json_body r = Raise e ->
        Exn.isinstance e Exn.Exception = true -> fst out = failure e)
  /\ (forall r body, requests_post X (posts w) req = Ok r ->
        error_status r = false -> json_body r = Ok body ->
        (exists v, first_choice_content r = Ok v /\ fst out = Ok v)
        \/ (exists e, first_choice_content r = Raise e /\ fst out = failure e)).
Proof.
  cbv zeta. rewrite generate_response_eq. simpl fst. simpl snd.
  repeat apply conj.
  - reflexivity.
  - intros r v -> Hs ->. by rewrite (raise_for_status_ok r Hs).
  - by intros e -> ->.
  - intros r -> Hs. destruct (raise_for_status_error r Hs) as (e & He & _).
    rewrite He. eauto.
  - intros r e -> Hs Hb Hi. rewrite (raise_for_status_ok r Hs).
    unfold first_choice_content. by rewrite Hb, Hi.
  - intros r body -> Hs Hb. rewrite (raise_for_status_ok r Hs).
    destruct (first_choice_content r) as [v|e] eqn:Hv; [eauto |].
    right. rewrite (first_choice_content_raises r body e Hb Hv). eauto.
Qed.

End Client.

(** * The project *)

Section Project.

Context (X : externals).
Implicit Types (self : CodeProject) (w : world) (code : list N).

(** C3. [validate_python_code] returns true exactly when the parser
    accepts the text, and false exactly when the parser raises a
    [SyntaxError] (or one of its subclasses); any other exception of the
    parser is not caught and leaves the validator as it is. *)
Theorem validate_python_code_spec code :
  (validate_python_code X code = Ok true <-> ast_parse X code = Ok tt)
  /\ (validate_python_code X code = Ok false <->
        exists e, ast_parse X code = Raise e
                  /\ Exn.isinstance e Exn.SyntaxError = true)
  /\ (forall e, validate_python_code X code = Raise e <->
        ast_parse X code = Raise e
        /\ Exn.isinstance e Exn.SyntaxError = false).
Proof.
  unfold validate_python_code.
  destruct (ast_parse X code) as [[]|e].
  - split; [done |]. split.
    + split; [done | intros (e & ? & _); done].
    + intros e. split; [done | intros [? _]; done].
  - destruct (Exn.isinstance e Exn.SyntaxError) eqn:E.
    + split; [done |]. split.
      * split; [eauto | done].
      * intros e'. split; [done | intros [[= <-] ?]; congruence].
    + split; [done |]. split.
      * split; [done | intros (e' & [= <-] & ?); congruence].
      * intros e'. split; [intros [= <-]; done | intros [[= <-] _]; done].
Qed.

Lemma get_llm_response_known self role prompt w system :
  Py.dict_get system_messages role = Some system ->
  get_llm_response X self role prompt w =
  generate_response X (llm self) (messages_for system prompt) w.
Proof.
  intros H. unfold get_llm_response, bind, lift, Py.getitem_str. by rewrite H.
Qed.

Lemma get_llm_response_answers self role prompt w system v :
  Py.dict_get system_messages role = Some system ->
  answers X (posts w) (llm_request self role prompt) v ->
  get_llm_response X self role prompt w =
  (Ok v, sent (llm_request self role prompt) w).
Proof.
  intros H Ha. rewrite (get_llm_response_known _ _ _ _ _ H).
  unfold llm_request, system_message in *. rewrite H in *. simpl in Ha |- *.
  by apply generate_response_answers.
Qed.

Lemma write_code_to_file_ok self code name w :
  persists X self name code w ->
  write_code_to_file X self code name w =
  (Ok tt, written X (Py.path_join (workspace_dir self) name) code
            (made (workspace_dir self) w)).
Proof.
  intros [Hm Hw]. unfold write_code_to_file, bind, makedirs, write_file.
  by rewrite Hm, Hw.
Qed.

Lemma write_code_to_file_returns self code name w w' :
  write_code_to_file X self code name w = (Ok tt, w') ->
  persists X self name code w
  /\ w' = written X (Py.path_join (workspace_dir self) name) code
            (made (workspace_dir self) w).
Proof.
  unfold write_code_to_file, bind, makedirs, write_file, persists.
  destruct (os_makedirs X (trace w) _); [done |].
  destruct (open_write X _ _ _); [| done | done].
  by intros [= <-].
Qed.

Lemma print_value_ok v w :
  shows X v w -> print_value X v w = (Ok tt, log (Print v) w).
Proof. intros H. unfold print_value. by rewrite H. Qed.

Lemma print_value_refused v w e :
  stdout_write X (trace w) v = Some e -> print_value X v w = (Raise (io_exn e), w).
Proof. intros H. unfold print_value. by rewrite H. Qed.

(** The steps up to the request for the review, when each returns. *)
Ltac to_review A1 E1 V P1 A2 :=
  unfold generate_project, bind at 1;
  erewrite get_llm_response_answers by (reflexivity || exact A1);
  unfold bind at 1, lift at 1; simpl extract_code; rewrite E1;
  unfold bind at 1, lift at 1; rewrite V; change (negb true) with false;
  cbv iota; unfold bind at 1; fold MAIN_PY;
  erewrite write_code_to_file_ok by exact P1;
  unfold bind at 1;
  erewrite get_llm_response_answers by (reflexivity || exact A2);
  unfold bind at 1, print at 1, emit at 1.

(** The run in which every step succeeds. *)
Lemma generate_project_success self requirements w resp code review tests test_code :
  answers X (posts w)
    (llm_request self CODE_WRITER (writer_prompt requirements)) (PStr resp) ->
  extract_code_from_response resp = Ok code ->
  validate_python_code X code = Ok true ->
  persists X self MAIN_PY code (asked self requirements w) ->
  answers X (S (posts w))
    (llm_request self CODE_REVIEWER (review_prompt code)) review ->
  shows X review (announced X self requirements code w) ->
  answers X (S (S (posts w)))
    (llm_request self TEST_WRITER (test_prompt code)) (PStr tests) ->
  extract_code_from_response tests = Ok test_code ->
  persists X self TEST_MAIN_PY test_code (reviewed X self requirements code review w) ->
  generate_project X self requirements w =
  (Ok tt, generated X self requirements code review test_code w).
Proof.
  intros A1 E1 V P1 A2 S2 A3 E3 P2.
  unfold asked, announced, reviewed in *.
  to_review A1 E1 V P1 A2.
  unfold bind at 1. erewrite print_value_ok by exact S2.
  unfold bind at 1.
  erewrite get_llm_response_answers by (reflexivity || exact A3).
  unfold bind at 1, lift at 1. simpl extract_code. rewrite E3.
  by erewrite write_code_to_file_ok by exact P2.
Qed.

(** The run in which the extracted code does not parse. *)
Lemma generate_project_invalid self requirements w resp code :
  answers X (posts w)
    (llm_request self CODE_WRITER (writer_prompt requirements)) (PStr resp) ->
  extract_code_from_response resp = Ok code ->
  validate_python_code X code = Ok false ->
  generate_project X self requirements w =
  (Raise INVALID_CODE,
   sent (llm_request self CODE_WRITER (writer_prompt requirements)) w).
Proof.
  intros A1 E1 V. unfold generate_project, bind at 1.
  erewrite get_llm_response_answers by (reflexivity || exact A1).
  unfold bind at 1, lift at 1. simpl extract_code. rewrite E1.
  unfold bind at 1, lift at 1. rewrite V. reflexivity.
Qed.

(** The run in which the first answer holds no code. *)
Lemma generate_project_no_code self requirements w resp e :
  answers X (posts w)
    (llm_request self CODE_WRITER (writer_prompt requirements)) (PStr resp) ->
  extract_code_from_response resp = Raise e ->
  generate_project X self requirements w =
  (Raise e, sent (llm_request self CODE_WRITER (writer_prompt requirements)) w).
Proof.
  intros A1 E1. unfold generate_project, bind at 1.
  erewrite get_llm_response_answers by (reflexivity || exact A1).
  unfold bind at 1, lift at 1. simpl extract_code. rewrite E1. reflexivity.
Qed.

(** The run in which the main file cannot be written: it ends there. *)
Lemma generate_project_not_persisted self requirements w resp code e w2 :
  answers X (posts w)
    (llm_request self CODE_WRITER (writer_prompt requirements)) (PStr resp) ->
  extract_code_from_response resp = Ok code ->
  validate_python_code X code = Ok true ->
  write_code_to_file X self code MAIN_PY (asked self requirements w) = (Raise e, w2) ->
  generate_project X self requirements w = (Raise e, w2).
Proof.
  intros A1 E1 V P1. unfold asked in *. unfold generate_project, bind at 1.
  erewrite get_llm_response_answers by (reflexivity || exact A1).
  unfold bind at 1, lift at 1. simpl extract_code. rewrite E1.
  unfold bind at 1, lift at 1. rewrite V. change (negb true) with false.
  cbv iota. unfold bind at 1. fold MAIN_PY CODE_WRITER. by rewrite P1.
Qed.

(** The run in which the answer to the request for tests holds no code:
    the main file is written and the review printed, the test file is
    not. *)
Lemma generate_project_no_tests self requirements w resp code review tests e :
  answers X (posts w)
    (llm_request self CODE_WRITER (writer_prompt requirements)) (PStr resp) ->
  extract_code_from_response resp = Ok code ->
  validate_python_code X code = Ok true ->
  persists X self MAIN_PY code (asked self requirements w) ->
  answers X (S (posts w))
    (llm_request self CODE_REVIEWER (review_prompt code)) review ->
  shows X review (announced X self requirements code w) ->
  answers X (S (S (posts w)))
    (llm_request self TEST_WRITER (test_prompt code)) (PStr tests) ->
  extract_code_from_response tests = Raise e ->
  generate_project X self requirements w =
  (Raise e, reviewed X self requirements code review w).
Proof.
  intros A1 E1 V P1 A2 S2 A3 E3.
  unfold asked, announced, reviewed in *.
  to_review A1 E1 V P1 A2.
  unfold bind at 1. erewrite print_value_ok by exact S2.
  unfold bind at 1.
  erewrite get_llm_response_answers by (reflexivity || exact A3).
  unfold bind at 1, lift at 1. simpl extract_code. by rewrite E3.
Qed.

(** The run in which the review cannot be printed: it ends there, the
    main file written. *)
Lemma generate_project_not_shown self requirements w resp code review e :
  answers X (posts w)
    (llm_request self CODE_WRITER (writer_prompt requirements)) (PStr resp) ->
  extract_code_from_response resp = Ok code ->
  validate_python_code X code = Ok true ->
  persists X self MAIN_PY code (asked self requirements w) ->
  answers X (S (posts w))
    (llm_request self CODE_REVIEWER (review_prompt code)) review ->
  stdout_write X (trace (announced X self requirements code w)) review = Some e ->
  generate_project X self requirements w =
  (Raise (io_exn e), announced X self requirements code w).
Proof.
  intros A1 E1 V P1 A2 S2.
  unfold asked, announced in *.
  to_review A1 E1 V P1 A2.
  unfold bind at 1. by erewrite print_value_refused by exact S2.
Qed.

(** The run in which the test file cannot be written: it ends there. *)
Lemma generate_project_tests_not_persisted self requirements w resp code review
    tests test_code e w2 :
  answers X (posts w)
    (llm_request self CODE_WRITER (writer_prompt requirements)) (PStr resp) ->
  extract_code_from_response resp = Ok code ->
  validate_python_code X code = Ok true ->
  persists X self MAIN_PY code (asked self requirements w) ->
  answers X (S (posts w))
    (llm_request self CODE_REVIEWER (review_prompt code)) review ->
  shows X review (announced X self requirements code w) ->
  answers X (S (S (posts w)))
    (llm_request self TEST_WRITER (test_prompt code)) (PStr tests) ->
  extract_code_from_response tests = Ok test_code ->
  write_code_to_file X self test_code TEST_MAIN_PY
    (reviewed X self requirements code review w) = (Raise e, w2) ->
  generate_project X self requirements w = (Raise e, w2).
Proof.
  intros A1 E1 V P1 A2 S2 A3 E3 P2.
  unfold asked, announced, reviewed in *.
  to_review A1 E1 V P1 A2.
  unfold bind at 1. erewrite print_value_ok by exact S2.
  unfold bind at 1.
  erewrite get_llm_response_answers by (reflexivity || exact A3).
  unfold bind at 1, lift at 1. simpl extract_code. rewrite E3.
  fold TEST_MAIN_PY CODE_WRITER CODE_REVIEWER TEST_WRITER. exact P2.
Qed.

End Project.

(** * The error boundary and [main] *)

Create HintDb only_exn discriminated.

Section Boundary.

Context (X : externals).

Lemma only_ret {A} (a : A) : only_exceptions (ret a).
Proof. intros w e w' [=]. Qed.

Lemma only_emit ev : only_exceptions (emit ev).
Proof. intros w e w' [=]. Qed.

Lemma only_print s : only_exceptions (print s).
Proof. apply only_emit. Qed.

Lemma only_raise {A} c msg :
  Exn.issubclass c Exn.Exception = true -> only_exceptions (@raise A c msg).
Proof. intros H w e w' [= <- _]. exact H. Qed.

Lemma only_lift {A} (r : result A) :
  (forall e, r = Raise e -> Exn.isinstance e Exn.Exception = true) ->
  only_exceptions (lift r).
Proof. intros H w e w' [= Hr _]. by apply H. Qed.

Lemma only_bind {A B} (m : M A) (k : A -> M B) :
  only_exceptions m -> (forall a, only_exceptions (k a)) ->
  only_exceptions (bind m k).
Proof.
  intros Hm Hk w e w'. unfold bind.
  destruct (m w) as [[a|e1] w1] eqn:E.
  - apply Hk.
  - intros [= <- _]. eapply Hm. exact E.
Qed.

Lemma only_try {A} (m : M A) c h :
  only_exceptions m -> (forall e, only_exceptions (h e)) ->
  only_exceptions (try_except m c h).
Proof.
  intros Hm Hh w e w'. unfold try_except.
  destruct (m w) as [[a|e1] w1] eqn:E; [done |].
  destruct (Exn.isinstance e1 c).
  - apply Hh.
  - intros [= <- _]. eapply Hm. exact E.
Qed.

Hint Resolve only_ret only_emit only_print only_bind only_try : only_exn.

(** A refusal of the operating system is an instance of [Exception]. *)
Lemma io_exn_exception e : Exn.isinstance (io_exn e) Exn.Exception = true.
Proof. destruct e as [[] text]; reflexivity. Qed.

Lemma only_makedirs path : only_exceptions (makedirs X path).
Proof.
  intros w e w'. unfold makedirs. destruct (os_makedirs X _ _); [| done].
  intros [= <- _]. apply io_exn_exception.
Qed.

Lemma only_write_file path code : only_exceptions (write_file X path code).
Proof.
  intros w e w'. unfold write_file.
  destruct (open_write X _ _ _); [done | |]; intros [= <- _];
    apply io_exn_exception.
Qed.

Lemma only_write_code_to_file self code name :
  only_exceptions (write_code_to_file X self code name).
Proof.
  unfold write_code_to_file.
  auto using only_makedirs, only_write_file with only_exn.
Qed.

Lemma only_print_value v : only_exceptions (print_value X v).
Proof.
  intros w e w'. unfold print_value. destruct (stdout_write X _ _); [| done].
  intros [= <- _]. apply io_exn_exception.
Qed.

Lemma only_extract_code v : only_exceptions (lift (extract_code v)).
Proof.
  apply only_lift. intros e. destruct v; simpl; try by intros [= <-].
  rewrite extract_code_from_response_eq.
  destruct (code_blocks _); [by intros [= <-] | done].
Qed.

Section Safe.

Hypothesis HX : raises_exceptions_only X.

Lemma only_generate_response self messages :
  only_exceptions (generate_response X self messages).
Proof.
  destruct HX as (Hpost & Hjson & _ & _).
  intros w e w'. rewrite generate_response_eq.
  destruct (requests_post X _ _) as [r|e1] eqn:Hr.
  - destruct (raise_for_status r); [| by intros [= <- _]].
    destruct (first_choice_content r) as [v|e2] eqn:Hv; [done |].
    destruct (Exn.isinstance e2 Exn.Exception) eqn:Hi; [by intros [= <- _] |].
    intros _. destruct (json_body r) as [body|eb] eqn:Hb.
    + rewrite (first_choice_content_raises r body e2 Hb Hv) in Hi. done.
    + unfold first_choice_content in Hv. rewrite Hb in Hv.
      injection Hv as <-. rewrite (Hjson _ _ _ _ Hr Hb) in Hi. done.
  - destruct (Exn.isinstance e1 Exn.Exception) eqn:Hi; [by intros [= <- _] |].
    rewrite (Hpost _ _ _ Hr) in Hi. done.
Qed.

Lemma only_get_llm_response self role prompt :
  only_exceptions (get_llm_response X self role prompt).
Proof.
  unfold get_llm_response. apply only_bind.
  - apply only_lift. intros e. apply getitem_str_raises.
  - intros system. apply only_generate_response.
Qed.

Lemma only_validate code : only_exceptions (lift (validate_python_code X code)).
Proof.
  destruct HX as (_ & _ & Hparse & _).
  apply only_lift. intros e. unfold validate_python_code.
  destruct (ast_parse X code) as [|e1] eqn:E; [done |].
  destruct (Exn.isinstance e1 Exn.SyntaxError); [done |].
  intros [= <-]. eapply Hparse. exact E.
Qed.

Lemma only_generate_project self requirements :
  only_exceptions (generate_project X self requirements).
Proof.
  unfold generate_project.
  apply only_bind; [apply only_get_llm_response | intros v1].
  apply only_bind; [apply only_extract_code | intros code].
  apply only_bind; [apply only_validate | intros valid].
  destruct valid; simpl.
  - apply only_bind; [apply only_write_code_to_file | intros _].
    apply only_bind; [apply only_get_llm_response | intros v2].
    apply only_bind; [apply only_print | intros _].
    apply only_bind; [apply only_print_value | intros _].
    apply only_bind; [apply only_get_llm_response | intros v3].
    apply only_bind; [apply only_extract_code | intros test_code].
    apply only_write_code_to_file.
  - by apply only_raise.
Qed.

(** [run_tests] returns whatever the runner does. *)
Lemma run_tests_returns self w :
  exists w', run_tests X self w = (Ok tt, w').
Proof.
  destruct HX as (_ & _ & _ & Hpytest).
  unfold run_tests, try_except, bind, pytest, ret, print, emit.
  destruct (fst (pytest_main X _ _)) as [n|e] eqn:E; [eauto |].
  rewrite (Hpytest _ _ _ E). eauto.
Qed.

(** The error boundary: [create_project] returns; when [generate_project]
    raises, what it raised is printed after the effects it had. *)
Lemma create_project_eq self requirements w :
  create_project X self requirements w =
  match generate_project X (project self) requirements
          (log (Print (PStr (lit "Generating project..."))) w) with
  | (Raise e, w1) =>
      (Ok tt, log (Print (PStr (lit "Error creating project: " ++ Exn.text e))) w1)
  | (Ok _, w1) =>
      (Ok tt,
       log (Print (PStr COMPLETED))
         (snd (run_tests X (project self)
                 (log (Print (PStr ([10] ++ lit "Running tests..."))) w1))))
  end.
Proof.
  unfold create_project, try_except.
  unfold bind at 1, print at 1, emit at 1. unfold bind at 1.
  destruct (generate_project X _ _ _) as [[[]|e] w1] eqn:G.
  - unfold bind at 1, print at 1, emit at 1. unfold bind at 1.
    destruct (run_tests_returns (project self)
                (log (Print (PStr ([10] ++ lit "Running tests..."))) w1))
      as [w2 ->].
    reflexivity.
  - by rewrite (only_generate_project _ _ _ _ _ G).
Qed.

End Safe.

End Boundary.

(** * The script on the scenarios *)

Example demo_validate :
  validate_python_code (demo None []) (lit "x = 1") = Ok true
  /\ validate_python_code (demo None []) (lit "x = (") = Ok false.
Proof. split; reflexivity. Qed.

Example demo_extract :
  extract_code_from_response (lit "Here is the code:" ++ fenced (lit "x = 1"))
  = Ok (lit "x = 1").
Proof. reflexivity. Qed.

Example demo_answers :
  answers (demo None good_replies) 0
    (llm_request demo_project CODE_WRITER (writer_prompt (lit "add two numbers")))
    (PStr (lit "Here is the code:" ++ fenced (lit "x = 1"))).
Proof. eexists. repeat split. Qed.

Example demo_lookup :
  files used_world !! NOTES = Some (Text (lit "keep"))
  /\ files used_world !! lit "ws" = None.
Proof. split; vm_compute; reflexivity. Qed.

(** * The pipeline of [generate_project] *)

Section Pipeline.

Context (X : externals).
Implicit Types (self : CodeProject) (w : world).

Lemma generated_trace self requirements code review test_code w :
  trace (generated X self requirements code review test_code w) =
  trace w ++ pipeline self requirements code review test_code.
Proof.
  unfold generated, reviewed, announced, asked, pipeline. simpl.
  by rewrite <- !app_assoc.
Qed.

Lemma generated_files self requirements code review test_code w :
  files (generated X self requirements code review test_code w) =
  <[test_file X self := Text test_code]>
    (<[main_file X self := Text code]> (files w)).
Proof. reflexivity. Qed.

Lemma reviewed_files self requirements code review w :
  files (reviewed X self requirements code review w) =
  <[main_file X self := Text code]> (files w).
Proof. reflexivity. Qed.

Lemma path_join_inside dir name :
  startswith (lit "/") name = false ->
  inside dir (Py.path_join dir name) = true.
Proof.
  intros Hs. unfold inside, Py.path_join. rewrite Hs.
  change (startswith (lit "/") []) with false. cbv iota.
  destruct (last dir) as [c|] eqn:L.
  - apply startswith_iff. destruct (c =? 47).
    + exists name. by rewrite app_nil_r.
    + exists name. by rewrite app_nil_r, <- app_assoc.
  - reflexivity.
Qed.

Lemma main_test_differ self : main_path self <> test_path self.
Proof.
  unfold main_path, test_path, Py.path_join.
  change (startswith (lit "/") MAIN_PY) with false.
  change (startswith (lit "/") TEST_MAIN_PY) with false. cbv iota.
  destruct (last (workspace_dir self)) as [c|]; [| done].
  destruct (c =? 47); intros E.
  - by apply app_inv_head in E.
  - apply app_inv_head in E. by apply app_inv_head in E.
Qed.

(** C6. [generate_project] asks for the code first and does the rest in a
    fixed order, each step ending the run when it fails. An answer without
    code, or with code that does not parse (then the error is "Generated code
    is not valid Python"), ends the run with the request for the code as its
    only effect: no directory is made, no file is written and no second
    request is sent. Code that parses is written to the main file next, and
    the run ends there when the operating system refuses. When the main
    file is written, the review is asked for and printed, and the run ends
    there when the review cannot be printed; then the tests are asked for:
    an answer without tests ends the run there, the main file holding the
    code; otherwise the test file is written last. When that write is
    refused the run ends with its exception; when it is done the run
    returns, with three requests sent, the effects of the pipeline in their
    order, the test file holding the tests and the main file (when it is
    another file) the code. *)
Theorem generate_project_order self requirements w resp :
  let req := llm_request self CODE_WRITER (writer_prompt requirements) in
  answers X (posts w) req (PStr resp) ->
  (forall e, extract_code_from_response resp = Raise e ->
     generate_project X self requirements w = (Raise e, sent req w))
  /\ (forall code,
        extract_code_from_response resp = Ok code ->
        validate_python_code X code = Ok false ->
        generate_project X self requirements w = (Raise INVALID_CODE, sent req w)
        /\ files (sent req w) = files w
        /\ posts (sent req w) = S (posts w)
        /\ trace (sent req w) = trace w ++ [Post req])
  /\ (forall code e w2,
        extract_code_from_response resp = Ok code ->
        validate_python_code X code = Ok true ->
        write_code_to_file X self code MAIN_PY (sent req w) = (Raise e, w2) ->
        generate_project X self requirements w = (Raise e, w2))
  /\ (forall code review tests,
        extract_code_from_response resp = Ok code ->
        validate_python_code X code = Ok true ->
        persists X self MAIN_PY code (sent req w) ->
        answers X (S (posts w))
          (llm_request self CODE_REVIEWER (review_prompt code)) review ->
        shows X review (announced X self requirements code w) ->
        answers X (S (S (posts w)))
          (llm_request self TEST_WRITER (test_prompt code)) (PStr tests) ->
        (forall e, extract_code_from_response tests = Raise e ->
           generate_project X self requirements w =
           (Raise e, reviewed X self requirements code review w)
           /\ files (reviewed X self requirements code review w)
                !! main_file X self = Some (Text code))
        /\ (forall test_code, extract_code_from_response tests = Ok test_code ->
           persists X self TEST_MAIN_PY test_code
             (reviewed X self requirements code review w) ->
           exists w',
             generate_project X self requirements w = (Ok tt, w')
             /\ w' = written X (test_path self) test_code
                       (made (workspace_dir self)
                          (reviewed X self requirements code review w))
             /\ posts w' = S (S (S (posts w)))
             /\ trace w' =
                trace w ++
                  [ Post req;
                    Makedirs (workspace_dir self);
                    Write (main_path self) code;
                    Post (llm_request self CODE_REVIEWER (review_prompt code));
                    Print (PStr ([10] ++ lit "Code Review:"));
                    Print review;
                    Post (llm_request self TEST_WRITER (test_prompt code));
                    Makedirs (workspace_dir self);
                    Write (test_path self) test_code ]
             /\ files w' !! test_file X self = Some (Text test_code)
             /\ (main_file X self <> test_file X self ->
                 files w' !! main_file X self = Some (Text code))))
  /\ (forall code review e,
        extract_code_from_response resp = Ok code ->
        validate_python_code X code = Ok true ->
        persists X self MAIN_PY code (sent req w) ->
        answers X (S (posts w))
          (llm_request self CODE_REVIEWER (review_prompt code)) review ->
        stdout_write X (trace (announced X self requirements code w)) review
        = Some e ->
        generate_project X self requirements w =
        (Raise (io_exn e), announced X self requirements code w))
  /\ (forall code review tests test_code e w2,
        extract_code_from_response resp = Ok code ->
        validate_python_code X code = Ok true ->
        persists X self MAIN_PY code (sent req w) ->
        answers X (S (posts w))
          (llm_request self CODE_REVIEWER (review_prompt code)) review ->
        shows X review (announced X self requirements code w) ->
        answers X (S (S (posts w)))
          (llm_request self TEST_WRITER (test_prompt code)) (PStr tests) ->
        extract_code_from_response tests = Ok test_code ->
        write_code_to_file X self test_code TEST_MAIN_PY
          (reviewed X self requirements code review w) = (Raise e, w2) ->
        generate_project X self requirements w = (Raise e, w2)).
Proof.
  cbv zeta. intros A1. split; [| split; [| split; [| split; [| split]]]].
  5: { intros code review e E1 V P1 A2 S2. by eapply generate_project_not_shown. }
  5: { intros code review tests test_code e w2 E1 V P1 A2 S2 A3 E3 P2.
       by eapply generate_project_tests_not_persisted. }
  - intros e E1. by eapply generate_project_no_code.
  - intros code E1 V. split; [| done]. by eapply generate_project_invalid.
  - intros code e w2 E1 V P1. by eapply generate_project_not_persisted.
  - intros code review tests E1 V P1 A2 S2 A3. split.
    + intros e E3. split; [by eapply generate_project_no_tests |].
      rewrite reviewed_files. by rewrite lookup_insert_eq.
    + intros test_code E3 P2.
      exists (generated X self requirements code review test_code w).
      split; [by eapply generate_project_success |].
      split; [reflexivity |]. split; [done |].
      split; [apply generated_trace |]. rewrite generated_files. split.
      * by rewrite lookup_insert_eq.
      * intros Hd. rewrite lookup_insert_ne by done. by rewrite lookup_insert_eq.
Qed.

(** C7. On a run of [generate_project] in which every step succeeds (each
    request is answered with a fenced block, the code parses, and every call
    that makes the workspace, writes a file or prints the review returns),
    the workspace is made before each write and exactly two files are
    written, [main.py] and [test_main.py] in the workspace, whatever they
    held before; the test file holds the code cut out of the third answer
    and the main file, when the two paths do not lead to one file, the code
    cut out of the first. Every other file is as it was, so a workspace
    that held no file holds exactly these two when [generate_project]
    returns (the test runner started afterwards may add its own). The
    review is printed and written nowhere. *)
Theorem generate_project_files self requirements w resp code review tests test_code :
  answers X (posts w)
    (llm_request self CODE_WRITER (writer_prompt requirements)) (PStr resp) ->
  extract_code_from_response resp = Ok code ->
  validate_python_code X code = Ok true ->
  persists X self MAIN_PY code (asked self requirements w) ->
  answers X (S (posts w))
    (llm_request self CODE_REVIEWER (review_prompt code)) review ->
  shows X review (announced X self requirements code w) ->
  answers X (S (S (posts w)))
    (llm_request self TEST_WRITER (test_prompt code)) (PStr tests) ->
  extract_code_from_response tests = Ok test_code ->
  persists X self TEST_MAIN_PY test_code
    (reviewed X self requirements code review w) ->
  exists w',
    generate_project X self requirements w = (Ok tt, w')
    /\ files w' !! test_file X self = Some (Text test_code)
    /\ (main_file X self <> test_file X self ->
        files w' !! main_file X self = Some (Text code))
    /\ inside (workspace_dir self) (main_path self) = true
    /\ inside (workspace_dir self) (test_path self) = true
    /\ main_path self <> test_path self
    /\ (forall k, k <> main_file X self -> k <> test_file X self ->
          files w' !! k = files w !! k)
    /\ ((forall p, inside (workspace_dir self) p = true ->
           files w !! locate X p = None) ->
        forall p, inside (workspace_dir self) p = true ->
          (is_Some (files w' !! locate X p)
           <-> locate X p = main_file X self \/ locate X p = test_file X self))
    /\ List.filter is_write (trace w') =
       List.filter is_write (trace w) ++
         [ Makedirs (workspace_dir self); Write (main_path self) code;
           Makedirs (workspace_dir self); Write (test_path self) test_code ]
    /\ (In (Print review) (trace w')).
Proof.
  intros A1 E1 V P1 A2 S2 A3 E3 P2.
  exists (generated X self requirements code review test_code w).
  split; [by eapply generate_project_success |].
  assert (forall k, k <> main_file X self -> k <> test_file X self ->
            files (generated X self requirements code review test_code w) !! k
            = files w !! k) as Hother.
  { intros k H1 H2. rewrite generated_files.
    rewrite lookup_insert_ne by done. by rewrite lookup_insert_ne. }
  repeat apply conj.
  - rewrite generated_files. by rewrite lookup_insert_eq.
  - intros Hd. rewrite generated_files. rewrite lookup_insert_ne by done.
    by rewrite lookup_insert_eq.
  - by apply path_join_inside.
  - by apply path_join_inside.
  - apply main_test_differ.
  - exact Hother.
  - intros Hempty p Hp. split.
    + intros Hsome.
      destruct (decide (locate X p = main_file X self)) as [|H1]; [by left |].
      destruct (decide (locate X p = test_file X self)) as [|H2]; [by right |].
      rewrite Hother, (Hempty p Hp) in Hsome by done. by destruct Hsome.
    + rewrite generated_files. intros [-> | ->].
      * destruct (decide (test_file X self = main_file X self)) as [-> |].
        -- rewrite lookup_insert_eq. eauto.
        -- rewrite lookup_insert_ne by done. rewrite lookup_insert_eq. eauto.
      * rewrite lookup_insert_eq. eauto.
  - rewrite generated_trace, List.filter_app. reflexivity.
  - rewrite generated_trace. apply in_or_app. right. simpl. tauto.
Qed.

End Pipeline.

(** * [main] *)

Section Main.

Context (X : externals).
Implicit Types (cl : command_line) (args : Namespace) (w : world).

Lemma universal_newlines_no_cr_upto (n : nat) (s : list N) :
  (length s <= n)%nat -> 13 ∉ universal_newlines s.
Proof.
  revert s. induction n as [|n IH]; intros s Hn.
  - destruct s; [| simpl in Hn; lia]. simpl. apply not_elem_of_nil.
  - destruct s as [|c s']; [simpl; apply not_elem_of_nil |].
    simpl in Hn. cbn [universal_newlines].
    destruct (c =? 13) eqn:Ec.
    + destruct s' as [|d s''].
      * intros H. apply list_elem_of_singleton in H. done.
      * simpl in Hn. destruct (d =? 10); intros H;
          apply elem_of_cons in H as [H|H]; try done;
          revert H; apply IH; simpl; lia.
    + intros H. apply elem_of_cons in H as [H|H].
      * apply N.eqb_neq in Ec. congruence.
      * revert H. apply IH. lia.
Qed.

Lemma universal_newlines_no_cr (s : list N) : 13 ∉ universal_newlines s.
Proof. by apply (universal_newlines_no_cr_upto (length s)). Qed.

Lemma universal_newlines_id (s : list N) : 13 ∉ s -> universal_newlines s = s.
Proof.
  induction s as [|c s IH]; [done |]. intros H.
  apply not_elem_of_cons in H as [Hc Hs]. cbn [universal_newlines].
  destruct (c =? 13) eqn:Ec; [apply N.eqb_eq in Ec; congruence |].
  by rewrite IH.
Qed.

Lemma universal_newlines_length (n : nat) (s : list N) :
  (length s <= n)%nat -> (length (universal_newlines s) <= length s)%nat.
Proof.
  revert s. induction n as [|n IH]; intros s Hn.
  - destruct s; [done | simpl in Hn; lia].
  - destruct s as [|c s']; [done |]. simpl in Hn. cbn [universal_newlines].
    destruct (c =? 13).
    + destruct s' as [|d s'']; [done |]. simpl in Hn.
      destruct (d =? 10); cbn [length].
      * specialize (IH s''). lia.
      * specialize (IH (d :: s'')). cbn [length] in IH. lia.
    + cbn [length]. specialize (IH s'). lia.
Qed.

(** C9. What [read_requirements] does with its argument is decided by the
    file the argument names. A file of text is read: the result is its text
    with every CR LF and every other CR turned into LF, so it holds no CR,
    is no longer than the text, and is the text itself when that holds no
    CR. A file that does not decode, or cannot be opened, raises, and
    nothing is returned. An argument that names no file is returned as it
    is, with nothing read. No file is changed; two paths that name the same
    file are read alike; and these are the only ways to return: the
    argument itself for no file, the text of a file of text. *)
Theorem read_requirements_spec (path : list N) w :
  (forall s, files w !! locate X path = Some (Text s) ->
     read_requirements X path w
     = (Ok (universal_newlines s), log (Read path) w)
     /\ (13 ∉ universal_newlines s)
     /\ (length (universal_newlines s) <= length s)%nat
     /\ (13 ∉ s -> read_requirements X path w = (Ok s, log (Read path) w)))
  /\ (forall why, files w !! locate X path = Some (Undecodable why) ->
     read_requirements X path w
     = (Raise (Exn.Raised Exn.UnicodeDecodeError why), w))
  /\ (forall e, files w !! locate X path = Some (Unreadable e) ->
     read_requirements X path w = (Raise (io_exn e), w))
  /\ (files w !! locate X path = None ->
     read_requirements X path w = (Ok path, w))
  /\ files (snd (read_requirements X path w)) = files w
  /\ (forall path', locate X path' = locate X path ->
        fst (read_requirements X path' w) = fst (read_requirements X path w)
        \/ (files w !! locate X path = None
            /\ fst (read_requirements X path' w) = Ok path'))
  /\ (forall r w', read_requirements X path w = (Ok r, w') ->
        (files w !! locate X path = None /\ r = path /\ w' = w)
        \/ (exists s, files w !! locate X path = Some (Text s)
                      /\ r = universal_newlines s /\ w' = log (Read path) w)).
Proof.
  unfold read_requirements. repeat apply conj.
  - intros s ->. repeat apply conj; [done | apply universal_newlines_no_cr | |].
    + by apply (universal_newlines_length (length s)).
    + intros H. by rewrite universal_newlines_id.
  - by intros why ->.
  - by intros e ->.
  - by intros ->.
  - by destruct (files w !! locate X path) as [[| |]|].
  - intros path' ->.
    destruct (files w !! locate X path) as [[| |]|]; [by left .. | by right].
  - intros r w'. destruct (files w !! locate X path) as [[s| |]|];
      intros [= <- <-]; [right; by exists s | by left].
Qed.

(** C4. With the arguments parsed, no [--api-key] given and the variable
    unset or empty, [main] prints the error message and exits with status 1;
    that is all it does: no object is built, no request is sent, no file is
    touched. *)
Theorem main_missing_credential cl args w :
  parse_arguments cl = inl args ->
  arg_api_key args = None ->
  getenv X API_KEY_VAR = None \/ getenv X API_KEY_VAR = Some [] ->
  main X cl w = (Exited 1, log (Print (PStr MISSING_KEY)) w)
  /\ exit_status (fst (main X cl w)) = 1%Z
  /\ trace (snd (main X cl w)) = trace w ++ [Print (PStr MISSING_KEY)]
  /\ posts (snd (main X cl w)) = posts w
  /\ files (snd (main X cl w)) = files w.
Proof.
  intros Hp Hk He.
  assert (main X cl w = (Exited 1, log (Print (PStr MISSING_KEY)) w)) as ->.
  { unfold main. rewrite Hp. unfold main_with. rewrite Hk.
    fold API_KEY_VAR. by destruct He as [-> | ->]. }
  done.
Qed.

Lemma ProjectManager_init_eq args (key : list N) w :
  started w =
    log (Print (PStr (lit "Generating project...")))
      (snd (ProjectManager_init (arg_workspace args) key w))
  /\ fst (ProjectManager_init (arg_workspace args) key w)
     = Ok {| project := project_of args key |}.
Proof. split; reflexivity. Qed.

Lemma main_with_key args w (c : N) (key : list N) :
  credential X args = Some (c :: key) ->
  main_with X args w =
  match read_requirements X (arg_requirements args) w with
  | (Raise e, w1) => (Uncaught e, w1)
  | (Ok requirements, w1) =>
      match generate_project X (project_of args (c :: key)) requirements
              (started w1) with
      | (Raise e, w2) =>
          if Exn.isinstance e Exn.Exception
          then (Returned,
                log (Print (PStr (lit "Error creating project: " ++ Exn.text e))) w2)
          else (Uncaught e, w2)
      | (Ok _, w2) =>
          match run_tests X (project_of args (c :: key))
                  (log (Print (PStr ([10] ++ lit "Running tests..."))) w2) with
          | (Raise e, w3) =>
              if Exn.isinstance e Exn.Exception
              then (Returned,
                    log (Print (PStr (lit "Error creating project: " ++ Exn.text e))) w3)
              else (Uncaught e, w3)
          | (Ok _, w3) => (Returned, log (Print (PStr COMPLETED)) w3)
          end
      end
  end.
Proof.
  intros Hc. unfold main_with. fold API_KEY_VAR. fold (credential X args).
  rewrite Hc. destruct (read_requirements X _ w) as [[requirements|e] w1]; [| done].
  unfold ProjectManager_init, CodeProject_init, OpenRouterLLM_init.
  unfold bind at 1, emit at 1. unfold bind at 1, bind at 1, emit at 1.
  unfold bind at 1, bind at 1, emit at 1. unfold ret at 1, ret at 1, ret at 1.
  unfold create_project, try_except.
  unfold bind at 1, print at 1, emit at 1. unfold bind at 1.
  change (project {| project := ?p |}) with p.
  fold (project_of args (c :: key)). fold (started w1).
  destruct (generate_project X _ _ _) as [[[]|e] w2].
  - unfold bind at 1, print at 1, emit at 1. unfold bind at 1.
    destruct (run_tests X _ _) as [[[]|e] w3]; [done |].
    destruct (Exn.isinstance e Exn.Exception); done.
  - destruct (Exn.isinstance e Exn.Exception); done.
Qed.


End Main.

(** * The properties on the scenarios *)

Lemma demo_raises_exceptions_only key replies :
  Forall (fun r => exists x, r = Ok x /\ exists body, json_body x = Ok body) replies ->
  raises_exceptions_only (demo key replies).
Proof.
  intros Hall. repeat split; simpl.
  - intros n req e. unfold scripted.
    destruct (replies !! n) as [r|] eqn:E; [| by intros [= <-]].
    intros ->. rewrite Forall_forall in Hall.
    destruct (Hall (Raise e)) as (x & Hx & _); [| done].
    by eapply list_elem_of_lookup_2.
  - intros n req r e. unfold scripted.
    destruct (replies !! n) as [r'|] eqn:E; [| done].
    intros -> Hb. rewrite Forall_forall in Hall.
    destruct (Hall (Ok r)) as (x & [= <-] & body & Hbody).
    + by eapply list_elem_of_lookup_2.
    + congruence.
  - intros code e. unfold paren_parse.
    destruct (parens_match 0 code); [done |]. by intros [= <-].
  - done.
Qed.

Lemma good_replies_ok :
  Forall (fun r => exists x, r = Ok x /\ exists body, json_body x = Ok body)
         good_replies.
Proof. repeat constructor; eexists; (split; [reflexivity | eexists; reflexivity]). Qed.

Lemma demo_persists key replies self name code w :
  persists (demo key replies) self name code w.
Proof. split; reflexivity. Qed.

Lemma demo_shows key replies v w : shows (demo key replies) v w.
Proof. reflexivity. Qed.

Lemma main_missing_credential_witness :
  main (demo None []) (Options (Some (lit "add two numbers")) None None) empty_world
  = (Exited 1, log (Print (PStr MISSING_KEY)) empty_world)
  /\ exit_status
       (fst (main (demo None [])
               (Options (Some (lit "add two numbers")) None None) empty_world)) = 1%Z.
Proof.
  destruct (main_missing_credential (demo None [])
              (Options (Some (lit "add two numbers")) None None)
              {| arg_requirements := lit "add two numbers";
                 arg_workspace := lit "coding_workspace";
                 arg_api_key := None |}
              empty_world eq_refl eq_refl (or_introl eq_refl))
    as (H1 & H2 & _).
  exact (conj H1 H2).
Defined.

Lemma read_requirements_witness :
  read_requirements (demo None []) (lit "./reqs.txt") reqs_world
  = (Ok (lit "add two numbers"), log (Read (lit "./reqs.txt")) reqs_world)
  /\ read_requirements (demo None []) (lit "reqs.bin") binary_world
     = (Raise (Exn.Raised Exn.UnicodeDecodeError BAD_BYTE), binary_world)
  /\ read_requirements (demo None []) (lit "add two numbers") reqs_world
     = (Ok (lit "add two numbers"), reqs_world).
Proof.
  split; [| split].
  - destruct (read_requirements_spec (demo None []) (lit "./reqs.txt") reqs_world)
      as (H & _).
    destruct (H (lit "add two numbers")) as (_ & _ & _ & H');
      [vm_compute; reflexivity |].
    apply H'. vm_compute. intros H0.
    repeat (apply elem_of_cons in H0 as [H0|H0]; [discriminate |]).
    by apply not_elem_of_nil in H0.
  - destruct (read_requirements_spec (demo None []) (lit "reqs.bin") binary_world)
      as (_ & H & _).
    apply H. vm_compute. reflexivity.
  - destruct (read_requirements_spec (demo None []) (lit "add two numbers")
                reqs_world) as (_ & _ & _ & H & _).
    apply H. vm_compute. reflexivity.
Defined.

(** An argument that names a file, and what is returned is not what the
    file holds: a file that does not decode raises; a file with the line
    ends of DOS is returned with other line ends. *)
Lemma read_requirements_not_contents :
  files binary_world !! locate (demo None []) (lit "reqs.bin")
  = Some (Undecodable BAD_BYTE)
  /\ read_requirements (demo None []) (lit "reqs.bin") binary_world
     = (Raise (Exn.Raised Exn.UnicodeDecodeError BAD_BYTE), binary_world)
  /\ files dos_world !! locate (demo None []) (lit "reqs.txt")
     = Some (Text (lit "add" ++ [13; 10] ++ lit "two numbers"))
  /\ read_requirements (demo None []) (lit "reqs.txt") dos_world
     = (Ok (lit "add" ++ [10] ++ lit "two numbers"),
        log (Read (lit "reqs.txt")) dos_world).
Proof. repeat split; vm_compute; reflexivity. Qed.



Lemma answers_scripted key replies n req r v :
  replies !! n = Some (Ok r) ->
  error_status r = false -> first_choice_content r = Ok v ->
  answers (demo key replies) n req v.
Proof.
  intros Hn Hs Hv. exists r. split; [| done].
  simpl. unfold scripted. by rewrite Hn.
Qed.

Lemma answers_strict replies n req r v :
  replies !! n = Some (Ok r) ->
  error_status r = false -> first_choice_content r = Ok v ->
  answers (strict replies) n req v.
Proof.
  intros Hn Hs Hv. exists r. split; [| done].
  simpl. unfold scripted. by rewrite Hn.
Qed.

Lemma generate_project_order_witness :
  generate_project (demo None bad_replies) demo_project REQS empty_world
  = (Raise INVALID_CODE,
     sent (llm_request demo_project CODE_WRITER (writer_prompt REQS)) empty_world)
  /\ (exists w',
       generate_project (demo None good_replies) demo_project REQS empty_world
       = (Ok tt, w')
       /\ posts w' = 3%nat
       /\ files w' !! lit "ws/test_main.py" = Some (Text (lit "assert True")))
  /\ generate_project (strict good_replies) blocked_project REQS empty_world
     = (Raise (io_exn NOT_A_DIRECTORY),
        sent (llm_request blocked_project CODE_WRITER (writer_prompt REQS))
          empty_world)
  /\ generate_project (strict surrogate_replies) demo_project REQS empty_world
     = (Raise (io_exn NOT_ENCODABLE),
        announced (strict surrogate_replies) demo_project REQS (lit "x = 1")
          empty_world).
Proof.
  split; [| split; [| split]].
  - destruct (generate_project_order (demo None bad_replies) demo_project REQS
                empty_world BAD_ANSWER) as (_ & H & _).
    + eapply answers_scripted; reflexivity.
    + apply (H (lit "x = (")); reflexivity.
  - destruct (generate_project_order (demo None good_replies) demo_project REQS
                empty_world GOOD_ANSWER) as (_ & _ & _ & H & _).
    + eapply answers_scripted; reflexivity.
    + destruct (H (lit "x = 1") (PStr (lit "Looks fine.")) TESTS_ANSWER)
        as [_ H'].
      * reflexivity.
      * reflexivity.
      * apply demo_persists.
      * eapply answers_scripted; reflexivity.
      * apply demo_shows.
      * eapply answers_scripted; reflexivity.
      * destruct (H' (lit "assert True") eq_refl (demo_persists _ _ _ _ _ _))
          as (w' & Hrun & _ & Hposts & _ & Htest & _).
        exists w'. split; [exact Hrun |]. split; [exact Hposts | exact Htest].
  - destruct (generate_project_order (strict good_replies) blocked_project REQS
                empty_world GOOD_ANSWER) as (_ & _ & H & _).
    + eapply answers_strict; reflexivity.
    + apply (H (lit "x = 1")); reflexivity.
  - destruct (generate_project_order (strict surrogate_replies) demo_project REQS
                empty_world GOOD_ANSWER) as (_ & _ & _ & _ & H & _).
    + eapply answers_strict; reflexivity.
    + apply (H (lit "x = 1") (PStr [55357])).
      * reflexivity.
      * reflexivity.
      * split; reflexivity.
      * eapply answers_strict; reflexivity.
      * reflexivity.
Defined.

(** What the operating system refuses inside [create_project] is printed
    by its error boundary, and [main] returns. *)
Example main_workspace_under_file :
  main (strict good_replies)
    (Options (Some REQS) (Some (lit "a/b")) (Some (lit "sk-test"))) empty_world
  = (Returned,
     log (Print (PStr (lit "Error creating project: [Errno 20] Not a directory: 'a/b'")))
       (sent (llm_request blocked_project CODE_WRITER (writer_prompt REQS))
          (started empty_world))).
Proof. vm_compute. reflexivity. Qed.

Lemma generate_project_files_witness :
  exists w',
    generate_project (demo None good_replies) demo_project REQS empty_world
    = (Ok tt, w')
    /\ files w' !! lit "ws/main.py" = Some (Text (lit "x = 1"))
    /\ files w' !! lit "ws/test_main.py" = Some (Text (lit "assert True")).
Proof.
  destruct (generate_project_files (demo None good_replies) demo_project REQS
              empty_world GOOD_ANSWER (lit "x = 1") (PStr (lit "Looks fine."))
              TESTS_ANSWER (lit "assert True"))
    as (w' & Hrun & Htest & Hmain & _).
  - eapply answers_scripted; reflexivity.
  - reflexivity.
  - reflexivity.
  - apply demo_persists.
  - eapply answers_scripted; reflexivity.
  - apply demo_shows.
  - eapply answers_scripted; reflexivity.
  - reflexivity.
  - apply demo_persists.
  - exists w'. split; [exact Hrun |]. split; [| exact Htest].
    apply Hmain. discriminate.
Defined.

(** A workspace that holds a file of the user before the run holds three
    files after it. *)
Lemma generate_project_keeps_other_files :
  exists w',
    generate_project (demo None good_replies) demo_project REQS used_world
    = (Ok tt, w')
    /\ files w' !! NOTES = Some (Text (lit "keep"))
    /\ files w' !! lit "ws/main.py" = Some (Text (lit "x = 1"))
    /\ files w' !! lit "ws/test_main.py" = Some (Text (lit "assert True"))
    /\ inside (lit "ws") NOTES = true
    /\ size (filter (fun entry => inside (lit "ws") (fst entry) = true) (files w'))
       = 3%nat.
Proof.
  eexists. split.
  - apply (generate_project_success (demo None good_replies) demo_project REQS
             used_world GOOD_ANSWER (lit "x = 1") (PStr (lit "Looks fine."))
             TESTS_ANSWER (lit "assert True")).
    + eapply answers_scripted; reflexivity.
    + reflexivity.
    + reflexivity.
    + apply demo_persists.
    + eapply answers_scripted; reflexivity.
    + apply demo_shows.
    + eapply answers_scripted; reflexivity.
    + reflexivity.
    + apply demo_persists.
  - repeat split; vm_compute; reflexivity.
Qed.

(** An answer with status 302 and a body with a first choice: its status is
    not a status of success, and its content is returned. *)
Lemma generate_response_returns_on_302 :
  exists r,
    requests_post (demo None [reply_with 302 (PStr (lit "pass"))]) 0
      (request_of demo_client demo_messages) = Ok r
    /\ status_code r = 302%Z
    /\ success_status r = false
    /\ generate_response (demo None [reply_with 302 (PStr (lit "pass"))])
         demo_client demo_messages empty_world
       = (Ok (PStr (lit "pass")),
          sent (request_of demo_client demo_messages) empty_world).
Proof. eexists. repeat split. Qed.

Lemma generate_response_witness :
  fst (generate_response (demo None [reply_with 200 (PStr (lit "pass"))])
         demo_client demo_messages empty_world) = Ok (PStr (lit "pass"))
  /\ fst (generate_response (demo None []) demo_client demo_messages empty_world)
     = failure (Exn.Raised Exn.ConnectionError (lit "Connection refused"))
  /\ fst (generate_response (demo None [reply_with 404 (PStr (lit "pass"))])
         demo_client demo_messages empty_world)
     = failure (Exn.Raised Exn.HTTPError
                  (lit "404 Client Error: OK for url: " ++ ENDPOINT)).
Proof.
  split; [| split].
  - destruct (generate_response_spec
                (demo None [reply_with 200 (PStr (lit "pass"))])
                demo_client demo_messages empty_world) as (_ & H & _).
    eapply H; reflexivity.
  - destruct (generate_response_spec (demo None [])
                demo_client demo_messages empty_world) as (_ & _ & H & _).
    apply H; reflexivity.
  - destruct (generate_response_spec
                (demo None [reply_with 404 (PStr (lit "pass"))])
                demo_client demo_messages empty_world) as (_ & _ & _ & H & _).
    destruct (H _ eq_refl eq_refl) as (e & He & ->).
    injection He as <-. reflexivity.
Defined.

(** * More on code extraction *)

Section Blocks.

Implicit Types (s pre body post rest sep cur code seg : list N) (c : N).

Lemma FENCE_chars : FENCE = [96; 96; 96].
Proof. reflexivity. Qed.

Lemma FENCE_PYTHON_chars :
  FENCE_PYTHON = [96; 96; 96; 112; 121; 116; 104; 111; 110].
Proof. reflexivity. Qed.

Lemma contains_cons sub c s :
  contains sub (c :: s) = startswith sub (c :: s) || contains sub s.
Proof.
  unfold contains. rewrite (find_unfold sub (c :: s)).
  destruct (startswith sub (c :: s)); [done |].
  by destruct (find sub s).
Qed.

Lemma contains_tail sub c s : contains sub (c :: s) = false -> contains sub s = false.
Proof. rewrite contains_cons. by intros [_ ?]%orb_false_elim. Qed.

Lemma split_go_skip sep cur (u v : list N) :
  split_go sep (length u) cur (u ++ v) = split_go sep 0 cur v.
Proof. induction u as [|c u IH]; [done | exact IH]. Qed.

(** The scan at the leftmost separator: the text before it is a segment and
    the scan goes on behind it. *)
Lemma split_go_at sep cur pre rest :
  sep <> [] ->
  before sep (pre ++ sep ++ rest) = pre ->
  split_go sep 0 cur (pre ++ sep ++ rest)
  = (rev cur ++ pre) :: split_go sep 0 [] rest.
Proof.
  intros Hsep. revert cur. induction pre as [|c pre IH]; intros cur Hb.
  - rewrite app_nil_r. destruct sep as [|x sep]; [done |]. simpl app.
    assert (startswith (x :: sep) (x :: sep ++ rest) = true) as Hs
      by (apply startswith_iff; by exists rest).
    simpl split_go. simpl in Hs. rewrite Hs. f_equal.
    rewrite Nat.sub_0_r. apply split_go_skip.
  - simpl app in *. simpl before in Hb. simpl split_go.
    destruct (startswith sep (c :: pre ++ sep ++ rest)); [done |].
    injection Hb as Hb. rewrite (IH (c :: cur) Hb). simpl.
    by rewrite <- app_assoc.
Qed.

Lemma split_go_none sep cur s :
  contains sep s = false -> split_go sep 0 cur s = [rev cur ++ s].
Proof.
  revert cur. induction s as [|c s IH]; intros cur H.
  - simpl. by rewrite app_nil_r.
  - rewrite contains_cons in H. apply orb_false_elim in H as [H1 H2].
    simpl split_go. rewrite H1, (IH _ H2). simpl. by rewrite <- app_assoc.
Qed.

(** Every segment of a split is a piece of the string. *)
Lemma split_go_substring sep k cur s seg :
  (k <> O -> cur = []) ->
  In seg (split_go sep k cur s) ->
  exists a b, rev cur ++ s = a ++ seg ++ b.
Proof.
  revert k cur. induction s as [|c s IH]; intros k cur Hk.
  - simpl. intros [<- | []]. exists [], []. by rewrite !app_nil_r.
  - simpl split_go. destruct k as [|k].
    + destruct (startswith sep (c :: s)).
      * intros [<- | Hin].
        -- exists [], (c :: s). done.
        -- destruct (IH _ [] (fun _ => eq_refl) Hin) as (a & b & E).
           simpl in E. exists (rev cur ++ c :: a), b. rewrite E.
           by rewrite <- app_assoc.
      * intros Hin. destruct (IH 0%nat (c :: cur) (fun H => False_ind _ (H eq_refl)) Hin)
          as (a & b & E).
        exists a, b. rewrite <- E. simpl. by rewrite <- app_assoc.
    + rewrite (Hk (Nat.neq_succ_0 k)). intros Hin.
      destruct (IH k [] (fun _ => eq_refl) Hin) as (a & b & E).
      simpl in E |- *. exists (c :: a), b. by rewrite E.
Qed.

Lemma before_unfold sep s :
  before sep s = if startswith sep s then []
                 else match s with [] => [] | c :: s' => c :: before sep s' end.
Proof. by destruct s. Qed.

Lemma before_at sep rest : before sep (sep ++ rest) = [].
Proof.
  rewrite before_unfold.
  assert (startswith sep (sep ++ rest) = true) as ->
    by (apply startswith_iff; by exists rest).
  done.
Qed.

Lemma startswith_fence3 (a b d : N) s :
  startswith FENCE (a :: b :: d :: s) = (96 =? a) && ((96 =? b) && (96 =? d)).
Proof.
  rewrite FENCE_chars. cbn [startswith]. by rewrite andb_true_r.
Qed.

Lemma startswith_marker_fence s :
  startswith FENCE_PYTHON s = true -> startswith FENCE s = true.
Proof.
  intros [b ->]%startswith_iff. apply startswith_iff.
  exists ([112; 121; 116; 104; 111; 110] ++ b). by rewrite FENCE_PYTHON_chars.
Qed.

(** A text without a fence, in front of anything that starts with a fence
    and then a letter, has no opening marker starting inside it. *)
Lemma before_marker pre rest :
  contains FENCE pre = false ->
  before FENCE_PYTHON (pre ++ FENCE_PYTHON ++ rest) = pre.
Proof.
  induction pre as [|c pre IH]; intros H.
  - exact (before_at FENCE_PYTHON rest).
  - rewrite contains_cons in H. apply orb_false_elim in H as [H1 H2].
    rewrite <- app_comm_cons, before_unfold, (IH H2).
    destruct (startswith FENCE_PYTHON (c :: pre ++ FENCE_PYTHON ++ rest)) eqn:E;
      [| done].
    exfalso. rewrite FENCE_PYTHON_chars in E.
    destruct pre as [|b [|d pre]].
    + cbn [app startswith] in E.
      change (112 =? 96) with false in E. by rewrite !andb_false_r in E.
    + cbn [app startswith] in E.
      change (112 =? 96) with false in E. by rewrite !andb_false_r in E.
    + rewrite startswith_fence3 in H1. cbn [app startswith] in E.
      destruct (96 =? c), (96 =? b), (96 =? d); simpl in *; done.
Qed.

(** A body without a fence that does not end with a backtick: the closing
    fence behind it is the first fence. *)
Lemma startswith_fence_body c body post :
  contains FENCE (c :: body) = false ->
  last (c :: body) <> Some 96 ->
  startswith FENCE (c :: body ++ FENCE ++ post) = false.
Proof.
  intros H Hl. rewrite contains_cons in H. apply orb_false_elim in H as [H1 _].
  destruct body as [|b [|d body]].
  - simpl in Hl. rewrite FENCE_chars. cbn [app startswith].
    destruct (96 =? c) eqn:E; [| done]. apply N.eqb_eq in E. congruence.
  - simpl in Hl. rewrite FENCE_chars. cbn [app startswith].
    destruct (96 =? b) eqn:E; [| by rewrite andb_false_r].
    apply N.eqb_eq in E. congruence.
  - rewrite startswith_fence3 in H1. rewrite <- !app_comm_cons.
    by rewrite startswith_fence3.
Qed.

Lemma last_tail c body : body <> [] -> last (c :: body) = last body.
Proof. by destruct body. Qed.

Lemma before_fence_body body post :
  contains FENCE body = false ->
  last body <> Some 96 ->
  before FENCE (body ++ FENCE ++ post) = body.
Proof.
  induction body as [|c body IH]; intros H Hl.
  - exact (before_at FENCE post).
  - rewrite <- app_comm_cons, before_unfold.
    rewrite (startswith_fence_body c body post H Hl). f_equal.
    destruct body as [|b body].
    + apply IH; done.
    + apply IH; [by eapply contains_tail |]. by rewrite last_tail in Hl.
Qed.

Lemma before_marker_fence post :
  closes post ->
  before FENCE_PYTHON (FENCE ++ post) = FENCE ++ before FENCE_PYTHON post.
Proof.
  intros Hp. rewrite FENCE_chars, FENCE_PYTHON_chars.
  destruct post as [|c post]; [reflexivity |].
  destruct (Hp c eq_refl) as [H1 H2].
  apply N.eqb_neq in H1, H2. rewrite N.eqb_sym in H1. rewrite N.eqb_sym in H2.
  simpl app.
  rewrite before_unfold. cbn [startswith]. rewrite H2, !andb_false_r. f_equal.
  rewrite before_unfold. cbn [startswith]. rewrite H1, !andb_false_r. f_equal.
  rewrite before_unfold. cbn [startswith]. rewrite H1, !andb_false_r. done.
Qed.

Lemma before_marker_body body post :
  contains FENCE body = false ->
  last body <> Some 96 ->
  closes post ->
  before FENCE_PYTHON (body ++ FENCE ++ post)
  = body ++ FENCE ++ before FENCE_PYTHON post.
Proof.
  intros H Hl Hp. induction body as [|c body IH].
  - exact (before_marker_fence post Hp).
  - rewrite <- !app_comm_cons, before_unfold.
    destruct (startswith FENCE_PYTHON (c :: body ++ FENCE ++ post)) eqn:E.
    + apply startswith_marker_fence in E.
      by rewrite (startswith_fence_body c body post H Hl) in E.
    + f_equal. destruct body as [|b body].
      * exact (before_marker_fence post Hp).
      * apply IH; [by eapply contains_tail |]. by rewrite last_tail in Hl.
Qed.

End Blocks.

Section BlockProperties.

Implicit Types (s pre body post rest code response : list N) (c : N).

Lemma contains_marker_fence s :
  contains FENCE_PYTHON s = true -> contains FENCE s = true.
Proof.
  intros (a & b & ->)%contains_iff. apply contains_iff.
  exists a, ([112; 121; 116; 104; 111; 110] ++ b). by rewrite FENCE_PYTHON_chars.
Qed.

Lemma no_fence_no_marker s :
  contains FENCE s = false -> contains FENCE_PYTHON s = false.
Proof.
  intros H. destruct (contains FENCE_PYTHON s) eqn:E; [| done].
  apply contains_marker_fence in E. congruence.
Qed.

Lemma is_code_block_contains s : is_code_block s = contains FENCE s.
Proof.
  rewrite is_code_block_fence. destruct s; [reflexivity | done].
Qed.

Lemma code_blocks_cons_false s (segments : list (list N)) :
  contains FENCE s = false -> code_blocks (s :: segments) = code_blocks segments.
Proof.
  intros H. unfold code_blocks. rewrite filter_cons, is_code_block_contains, H.
  by destruct (decide _).
Qed.

Lemma code_blocks_cons_true s (segments : list (list N)) :
  contains FENCE s = true -> code_blocks (s :: segments) = s :: code_blocks segments.
Proof.
  intros H. unfold code_blocks. rewrite filter_cons, is_code_block_contains, H.
  by destruct (decide _).
Qed.

Lemma contains_fence_snoc s c :
  c <> 96 -> contains FENCE s = false -> contains FENCE (s ++ [c]) = false.
Proof.
  intros Hc. apply N.eqb_neq in Hc. rewrite N.eqb_sym in Hc.
  induction s as [|a s IH]; intros H.
  - rewrite app_nil_l, contains_cons.
    change (contains FENCE []) with false. rewrite FENCE_chars.
    cbn [startswith]. by rewrite Hc.
  - rewrite contains_cons in H. apply orb_false_elim in H as [H1 H2].
    rewrite <- app_comm_cons, contains_cons, (IH H2), orb_false_r.
    destruct s as [|b [|d s]].
    + rewrite FENCE_chars. cbn [app startswith]. by rewrite Hc, andb_false_r.
    + rewrite FENCE_chars. cbn [app startswith]. by rewrite Hc, !andb_false_r.
    + rewrite startswith_fence3 in H1. rewrite <- !app_comm_cons.
      by rewrite startswith_fence3.
Qed.

Lemma contains_fence_cons s c :
  c <> 96 -> contains FENCE s = false -> contains FENCE (c :: s) = false.
Proof.
  intros Hc H. apply N.eqb_neq in Hc. rewrite N.eqb_sym in Hc.
  rewrite contains_cons, H, orb_false_r, FENCE_chars.
  cbn [startswith]. by rewrite Hc.
Qed.

Lemma lstrip_id s :
  (forall c, head s = Some c -> isspace c = false) -> lstrip s = s.
Proof. destruct s as [|c s]; [done |]. intros H. simpl. by rewrite (H c). Qed.

Lemma rstrip_snoc_space s c : isspace c = true -> rstrip (s ++ [c]) = rstrip s.
Proof.
  intros H. unfold rstrip. rewrite rev_app_distr. simpl. by rewrite H.
Qed.

Lemma strip_snoc_space s c : isspace c = true -> strip (s ++ [c]) = strip s.
Proof.
  intros H. unfold strip. induction s as [|d s IH].
  - simpl. by rewrite H.
  - simpl. destruct (isspace d); [exact IH |].
    rewrite app_comm_cons. by apply rstrip_snoc_space.
Qed.

Lemma strip_cons_space s c : isspace c = true -> strip (c :: s) = strip s.
Proof. intros H. unfold strip. simpl. by rewrite H. Qed.

Lemma strip_idem s : strip (strip s) = strip s.
Proof.
  unfold strip at 1.
  rewrite (lstrip_id (strip s)) by apply strip_head.
  unfold rstrip. rewrite lstrip_id.
  - apply rev_involutive.
  - intros c Hc. apply (strip_last s).
    pose proof (last_reverse (rev (strip s))) as E.
    unfold reverse in E. rewrite <- rev_alt, rev_involutive in E.
    by rewrite E.
Qed.

Lemma strip_before_no_fence s : contains FENCE (strip (before FENCE s)) = false.
Proof.
  destruct (strip_sub (before FENCE s)) as (a & b & H).
  eapply contains_false_sub; [| exact H]. by apply before_no_sep.
Qed.

(** The block of a response in which no fence comes before the first
    opening marker. *)
Lemma extract_block pre body post :
  contains FENCE pre = false ->
  contains FENCE body = false ->
  last body <> Some 96 ->
  closes post ->
  extract_code_from_response (pre ++ FENCE_PYTHON ++ body ++ FENCE ++ post)
  = Ok (strip body).
Proof.
  intros Hpre Hbody Hlast Hpost. rewrite extract_code_from_response_eq.
  rewrite split_go_at by (done || by apply before_marker).
  destruct (split_go_head FENCE_PYTHON [] (body ++ FENCE ++ post)) as [more ->];
    [done |].
  rewrite before_marker_body by done.
  rewrite code_blocks_cons_false by done.
  rewrite code_blocks_cons_true.
  - simpl rev. rewrite app_nil_l. by rewrite before_fence_body.
  - apply contains_iff. by exists body, (before FENCE_PYTHON post).
Qed.

Lemma extract_fenced pre code :
  contains FENCE pre = false ->
  contains FENCE code = false ->
  extract_code_from_response (pre ++ fenced code) = Ok (strip code).
Proof.
  intros Hpre Hcode.
  assert (pre ++ fenced code =
          (pre ++ [10]) ++ FENCE_PYTHON ++ (10 :: code ++ [10]) ++ FENCE ++ []) as ->.
  { unfold fenced. fold FENCE_PYTHON FENCE.
    rewrite app_nil_r, <- (app_assoc pre [10]). do 3 f_equal.
    change (10 :: code ++ [10]) with ([10] ++ code ++ [10]).
    by rewrite <- !app_assoc. }
  rewrite extract_block.
  - by rewrite strip_cons_space, strip_snoc_space.
  - by apply contains_fence_snoc.
  - apply contains_fence_cons; [done |]. by apply contains_fence_snoc.
  - rewrite app_comm_cons, last_snoc. done.
  - intros c [=].
Qed.

(** X1. When no fence comes before the first opening marker, the body
    behind the marker holds no fence and does not end with a backtick, and
    the closing fence is not followed by a backtick or a [p],
    [extract_code_from_response] returns the body, trimmed: the first python
    block wins, whatever follows its closing fence. *)
Theorem extract_first_block pre body post :
  contains FENCE pre = false ->
  contains FENCE body = false ->
  last body <> Some 96 ->
  closes post ->
  extract_code_from_response (pre ++ FENCE_PYTHON ++ body ++ FENCE ++ post)
  = Ok (strip body).
Proof. apply extract_block. Qed.

(** X2. The prompts of the script and its extraction agree: what
    [extract_code_from_response] returns, fenced again the way the review
    and the test prompts fence it, is extracted unchanged. *)
Theorem extract_prompt_round_trip response code :
  extract_code_from_response response = Ok code ->
  extract_code_from_response (review_prompt code) = Ok code
  /\ extract_code_from_response (test_prompt code) = Ok code.
Proof.
  rewrite extract_code_from_response_eq.
  destruct (code_blocks _) as [|block blocks]; [done |]. intros [= <-].
  unfold review_prompt, test_prompt.
  rewrite !extract_fenced, strip_idem;
    done || apply strip_before_no_fence.
Qed.

(** X3. What [extract_code_from_response] returns is a piece of the
    response: nothing is added or rewritten. *)
Theorem extract_is_substring response code :
  extract_code_from_response response = Ok code ->
  exists a b, response = a ++ code ++ b.
Proof.
  rewrite extract_code_from_response_eq.
  destruct (code_blocks _) as [|block blocks] eqn:E; [done |]. intros [= <-].
  assert (In block (split_go FENCE_PYTHON 0 [] response)) as Hin.
  { apply list_elem_of_In.
    assert (block ∈ code_blocks (split_go FENCE_PYTHON 0 [] response)) as H
      by (rewrite E; left).
    unfold code_blocks in H. by apply list_elem_of_filter in H as [_ H]. }
  destruct (split_go_substring _ _ _ _ _ (fun H => False_ind _ (H eq_refl)) Hin)
    as (a & b & Hr).
  destruct (before_prefix FENCE block) as [u Hu].
  destruct (strip_sub (before FENCE block)) as (x & y & Hs).
  exists (a ++ x), (y ++ u ++ b). simpl in Hr. rewrite Hr, Hu at 1.
  rewrite Hs at 1. by rewrite <- !app_assoc.
Qed.

(** X4. A response without any fence, and a response whose python block is
    never closed (an opening marker with no fence before or behind it), both
    raise "No code was generated". *)
Theorem extract_without_closing_fence :
  (forall response, contains FENCE response = false ->
     extract_code_from_response response = Raise NO_CODE)
  /\ (forall pre rest, contains FENCE pre = false -> contains FENCE rest = false ->
     extract_code_from_response (pre ++ FENCE_PYTHON ++ rest) = Raise NO_CODE).
Proof.
  split.
  - intros response H. rewrite extract_code_from_response_eq.
    rewrite split_go_none by by apply no_fence_no_marker.
    by rewrite code_blocks_cons_false.
  - intros pre rest Hpre Hrest. rewrite extract_code_from_response_eq.
    rewrite split_go_at by (done || by apply before_marker).
    rewrite split_go_none by by apply no_fence_no_marker.
    by rewrite !code_blocks_cons_false.
Qed.

(** X5. The filter of the list comprehension tests one thing only: a
    segment passes exactly when it holds a fence; its [block.strip()] test
    never rejects a segment that holds one. *)
Theorem is_code_block_is_fence_test s : is_code_block s = contains FENCE s.
Proof. apply is_code_block_contains. Qed.

End BlockProperties.

Lemma extract_first_block_witness :
  extract_code_from_response
    ((lit "Here:" ++ [10]) ++ FENCE_PYTHON ++ ([10] ++ lit "x = 1" ++ [10])
       ++ FENCE ++ ([10] ++ lit "And:" ++ fenced (lit "y = 2")))
  = Ok (lit "x = 1").
Proof.
  apply (extract_first_block (lit "Here:" ++ [10]) ([10] ++ lit "x = 1" ++ [10])
           ([10] ++ lit "And:" ++ fenced (lit "y = 2"))).
  - reflexivity.
  - reflexivity.
  - discriminate.
  - intros c [= <-]. split; discriminate.
Defined.

Lemma extract_prompt_round_trip_witness :
  extract_code_from_response (review_prompt (lit "x = 1")) = Ok (lit "x = 1")
  /\ extract_code_from_response (test_prompt (lit "x = 1")) = Ok (lit "x = 1").
Proof.
  apply (extract_prompt_round_trip sample_response (lit "x = 1")). reflexivity.
Defined.

Lemma extract_is_substring_witness :
  exists a b, sample_response = a ++ lit "x = 1" ++ b.
Proof.
  apply (extract_is_substring sample_response (lit "x = 1")). reflexivity.
Defined.

Lemma extract_without_closing_fence_witness :
  extract_code_from_response (lit "I cannot help with that.") = Raise NO_CODE
  /\ extract_code_from_response
       (lit "Sure:" ++ [10] ++ FENCE_PYTHON ++ [10] ++ lit "x = 1") = Raise NO_CODE.
Proof.
  split.
  - apply (proj1 extract_without_closing_fence). reflexivity.
  - apply (proj2 extract_without_closing_fence (lit "Sure:" ++ [10])
             ([10] ++ lit "x = 1")); reflexivity.
Defined.

(** * Every run of the pipeline *)

Section Runs.

Context (X : externals).
Implicit Types (self : CodeProject) (w : world) (code : list N).

Lemma get_llm_response_sent self role prompt w system :
  Py.dict_get system_messages role = Some system ->
  snd (get_llm_response X self role prompt w)
  = sent (llm_request self role prompt) w.
Proof.
  intros H. rewrite (get_llm_response_known _ _ _ _ _ _ H), generate_response_eq.
  unfold llm_request, system_message. by rewrite H.
Qed.

Lemma write_code_to_file_cases self code name w :
  (exists e, write_code_to_file X self code name w = (Raise e, w))
  \/ (exists e, write_code_to_file X self code name w
                = (Raise e, made (workspace_dir self) w))
  \/ (exists e remains,
        write_code_to_file X self code name w
        = (Raise e, spoiled X (Py.path_join (workspace_dir self) name) remains
                      (made (workspace_dir self) w)))
  \/ write_code_to_file X self code name w
     = (Ok tt, written X (Py.path_join (workspace_dir self) name) code
                 (made (workspace_dir self) w)).
Proof.
  unfold write_code_to_file, bind, makedirs, write_file.
  destruct (os_makedirs X (trace w) _); [left; eauto |].
  destruct (open_write X _ _ _);
    [by right; right; right | right; left; eauto | right; right; left; eauto].
Qed.

Lemma print_value_cases v w :
  (exists e, print_value X v w = (Raise e, w))
  \/ print_value X v w = (Ok tt, log (Print v) w).
Proof.
  unfold print_value. destruct (stdout_write X _ _); [left; eauto | by right].
Qed.

(** Where a run of [generate_project] can end. *)
Lemma generate_project_stage self requirements w r w' :
  generate_project X self requirements w = (r, w') ->
  exists s, w' = stage_world X self requirements w s /\ is_ok r = finished s.
Proof.
  unfold generate_project. unfold bind at 1.
  pose proof (get_llm_response_sent self CODE_WRITER (writer_prompt requirements)
                w _ eq_refl) as S1.
  destruct (get_llm_response X self _ _ w) as [[v1|e1] w1]; simpl in S1; subst w1;
    [| intros [= <- <-]; by exists Asked].
  unfold bind at 1, lift at 1.
  destruct (extract_code v1) as [code|e]; [| intros [= <- <-]; by exists Asked].
  unfold bind at 1, lift at 1.
  destruct (validate_python_code X code) as [[|]|e];
    [| intros [= <- <-]; by exists Asked | intros [= <- <-]; by exists Asked].
  change (negb true) with false. cbv iota. unfold bind at 1.
  destruct (write_code_to_file_cases self code MAIN_PY
              (sent (llm_request self CODE_WRITER (writer_prompt requirements)) w))
    as [[e ->] | [[e ->] | [(e & remains & ->) | ->]]];
    [intros [= <- <-]; by exists Asked | intros [= <- <-]; by exists MainDirMade
     | intros [= <- <-]; by exists (MainSpoiled remains) |].
  unfold bind at 1.
  pose proof (get_llm_response_sent self CODE_REVIEWER (review_prompt code)
                (written X (Py.path_join (workspace_dir self) MAIN_PY) code
                   (made (workspace_dir self)
                      (sent (llm_request self CODE_WRITER (writer_prompt requirements)) w)))
                _ eq_refl) as S2.
  destruct (get_llm_response X self _ _ _) as [[review|e2] w2]; simpl in S2; subst w2;
    [| intros [= <- <-]; by exists (ReviewAsked code)].
  unfold bind at 1, print at 1, emit at 1. unfold bind at 1.
  match goal with
  | |- context [print_value X review ?w0] =>
      destruct (print_value_cases review w0) as [[e ->] | ->]
  end; [intros [= <- <-]; by exists (ReviewAnnounced code) |].
  unfold bind at 1.
  match goal with
  | |- context [get_llm_response X self ?role ?prompt ?w0] =>
      pose proof (get_llm_response_sent self role prompt w0 _ eq_refl) as S3;
      destruct (get_llm_response X self role prompt w0) as [[v3|e3] w3]
  end; simpl in S3; subst w3;
    [| intros [= <- <-]; by exists (TestsAsked code review)].
  unfold bind at 1, lift at 1.
  destruct (extract_code v3) as [test_code|e];
    [| intros [= <- <-]; by exists (TestsAsked code review)].
  match goal with
  | |- context [write_code_to_file X self test_code TEST_MAIN_PY ?w0] =>
      destruct (write_code_to_file_cases self test_code TEST_MAIN_PY w0)
        as [[e ->] | [[e ->] | [(e & remains & ->) | ->]]]
  end.
  - intros [= <- <-]. by exists (TestsAsked code review).
  - intros [= <- <-]. by exists (TestDirMade code review).
  - intros [= <- <-]. by exists (TestSpoiled code review remains).
  - intros [= <- <-]. by exists (Finished code review test_code).
Qed.

(** X6. However a run of [generate_project] ends, what it did is a
    beginning of the one pipeline: the request for the code, the workspace
    made, the main file written, the request for the review, the review
    printed, the request for the tests, the workspace made, the test file
    written. A run that returns did all of it. *)
Theorem generate_project_effects_prefix self requirements w r w' :
  generate_project X self requirements w = (r, w') ->
  exists code review test_code evs,
    trace w' = trace w ++ evs
    /\ evs `prefix_of` pipeline self requirements code review test_code
    /\ evs <> []
    /\ (is_ok r = true -> evs = pipeline self requirements code review test_code).
Proof.
  intros H. destruct (generate_project_stage _ _ _ _ _ H) as (s & -> & Hok).
  destruct s as [| |remains|code|code|code review|code review
                 |code review remains|code review test_code].
  - exists [], PNone, [], (take 1 (pipeline self requirements [] PNone [])).
    repeat split; [by eexists | done | by rewrite Hok].
  - exists [], PNone, [], (take 2 (pipeline self requirements [] PNone [])).
    repeat split; [simpl; by rewrite <- !app_assoc | by eexists | done
                  | by rewrite Hok].
  - exists [], PNone, [], (take 2 (pipeline self requirements [] PNone [])).
    repeat split; [simpl; by rewrite <- !app_assoc | by eexists | done
                  | by rewrite Hok].
  - exists code, PNone, [], (take 4 (pipeline self requirements code PNone [])).
    repeat split; [simpl; by rewrite <- !app_assoc | by eexists | done
                  | by rewrite Hok].
  - exists code, PNone, [], (take 5 (pipeline self requirements code PNone [])).
    repeat split; [simpl; by rewrite <- !app_assoc | by eexists | done
                  | by rewrite Hok].
  - exists code, review, [], (take 7 (pipeline self requirements code review [])).
    repeat split; [simpl; by rewrite <- !app_assoc | by eexists | done
                  | by rewrite Hok].
  - exists code, review, [], (take 8 (pipeline self requirements code review [])).
    repeat split; [simpl; by rewrite <- !app_assoc | by eexists | done
                  | by rewrite Hok].
  - exists code, review, [], (take 8 (pipeline self requirements code review [])).
    repeat split; [simpl; by rewrite <- !app_assoc | by eexists | done
                  | by rewrite Hok].
  - exists code, review, test_code,
      (pipeline self requirements code review test_code).
    repeat split; [simpl; by rewrite <- !app_assoc | done | done].
Qed.

(** X7. However a run of [generate_project] ends, no file other than
    [main.py] and [test_main.py] of the workspace is changed, no file is
    removed, the only call of [os.makedirs] is for the workspace (which
    makes it and its missing parents) and the only files written are these
    two, and between one and three requests are sent. *)
Theorem generate_project_frame self requirements w r w' :
  generate_project X self requirements w = (r, w') ->
  (forall k, k <> main_file X self -> k <> test_file X self ->
     files w' !! k = files w !! k)
  /\ (forall k, is_Some (files w !! k) -> is_Some (files w' !! k))
  /\ (exists evs, trace w' = trace w ++ evs /\ Forall (touches_only self) evs)
  /\ (posts w < posts w' <= posts w + 3)%nat.
Proof.
  intros H. destruct (generate_project_stage _ _ _ _ _ H) as (s & -> & _).
  assert (forall (fs : gmap (list N) file) q v k,
            is_Some (fs !! k) -> is_Some (<[q := v]> fs !! k)) as Hkeep.
  { intros fs q v k Hk. destruct (decide (q = k)) as [-> |];
      [rewrite lookup_insert_eq; eauto | by rewrite lookup_insert_ne]. }
  split; [| split; [| split]].
  - intros k H1 H2. unfold main_file, test_file in *.
    destruct s; cbn -[lit]; by rewrite ?lookup_insert_ne by done.
  - intros k Hk. destruct s; cbn -[lit]; by repeat apply Hkeep.
  - destruct s; eexists; (split; [cbn -[lit]; by rewrite <- ?app_assoc |]);
      repeat (apply Forall_cons;
              split; [first [exact I | reflexivity | by left | by right] |]);
      constructor.
  - destruct s; cbn -[lit]; lia.
Qed.

(** X8. Every request a run of [generate_project] sends goes to the
    endpoint of its client and carries the key of the client as bearer
    token; the key goes nowhere else. *)
Theorem generate_project_requests self requirements w r w' :
  generate_project X self requirements w = (r, w') ->
  exists evs, trace w' = trace w ++ evs /\ Forall (request_by (llm self)) evs.
Proof.
  intros H. destruct (generate_project_stage _ _ _ _ _ H) as (s & -> & _).
  destruct s; eexists; (split; [simpl; by rewrite <- ?app_assoc |]);
    repeat constructor.
Qed.

(** X9. [get_llm_response] with a role that has no system message raises a
    [KeyError] and sends nothing. *)
Theorem get_llm_response_unknown_role self (role prompt : list N) w :
  Py.dict_get system_messages role = None ->
  exists e, get_llm_response X self role prompt w = (Raise e, w)
            /\ Exn.class e = Exn.KeyError.
Proof.
  intros H. unfold get_llm_response, bind, lift, Py.getitem_str. rewrite H.
  by eexists.
Qed.


(** X11. Writing is overwriting: when [write_code_to_file] has written a
    file and writes it again, the file holds the second text only; the
    first is gone, no other file changes, and the workspace is asked for
    before each write. *)
Theorem write_code_to_file_again self (first second name : list N) w w1 w2 :
  write_code_to_file X self first name w = (Ok tt, w1) ->
  write_code_to_file X self second name w1 = (Ok tt, w2) ->
  files w2
  = <[locate X (Py.path_join (workspace_dir self) name) := Text second]> (files w)
  /\ posts w2 = posts w
  /\ trace w2
     = trace w ++
         [ Makedirs (workspace_dir self);
           Write (Py.path_join (workspace_dir self) name) first;
           Makedirs (workspace_dir self);
           Write (Py.path_join (workspace_dir self) name) second ].
Proof.
  intros H1 H2. apply write_code_to_file_returns in H1 as [_ ->].
  apply write_code_to_file_returns in H2 as [_ ->].
  cbn [files posts trace written made log]. repeat split.
  - by rewrite insert_insert_eq.
  - by rewrite <- !app_assoc.
Qed.

Lemma get_llm_response_raised self role prompt w system e :
  Py.dict_get system_messages role = Some system ->
  requests_post X (posts w) (llm_request self role prompt) = Raise e ->
  get_llm_response X self role prompt w
  = (if Exn.isinstance e Exn.Exception then failure e else Raise e,
     sent (llm_request self role prompt) w).
Proof.
  intros H Hr. rewrite (get_llm_response_known _ _ _ _ _ _ H).
  rewrite generate_response_eq. unfold llm_request, system_message in *.
  rewrite H in *. simpl in Hr |- *. by rewrite Hr.
Qed.

Lemma get_llm_response_fails self role prompt w system e :
  Py.dict_get system_messages role = Some system ->
  requests_post X (posts w) (llm_request self role prompt) = Raise e ->
  Exn.isinstance e Exn.Exception = true ->
  get_llm_response X self role prompt w
  = (failure e, sent (llm_request self role prompt) w).
Proof.
  intros H Hr Hi. rewrite (get_llm_response_known _ _ _ _ _ _ H).
  rewrite generate_response_eq. unfold llm_request, system_message in *.
  rewrite H in *. simpl in Hr |- *. by rewrite Hr, Hi.
Qed.

(** X12. Nothing is rolled back: when the main file is written and the
    request for the review fails, the run ends with the wrapped failure,
    [main.py] stays written with the code, and the test file, when it is
    another file, is as it was. *)
Theorem generate_project_review_fails self requirements w resp code e :
  answers X (posts w)
    (llm_request self CODE_WRITER (writer_prompt requirements)) (PStr resp) ->
  extract_code_from_response resp = Ok code ->
  validate_python_code X code = Ok true ->
  persists X self MAIN_PY code (asked self requirements w) ->
  requests_post X (S (posts w))
    (llm_request self CODE_REVIEWER (review_prompt code)) = Raise e ->
  Exn.isinstance e Exn.Exception = true ->
  exists w',
    generate_project X self requirements w = (failure e, w')
    /\ w' = stage_world X self requirements w (ReviewAsked code)
    /\ files w' !! main_file X self = Some (Text code)
    /\ (test_file X self <> main_file X self ->
        files w' !! test_file X self = files w !! test_file X self).
Proof.
  intros A1 E1 V P1 Hr Hi.
  eexists. split; [| split; [reflexivity |]].
  - unfold asked in P1. unfold generate_project, bind at 1.
    erewrite get_llm_response_answers by (reflexivity || exact A1).
    unfold bind at 1, lift at 1. simpl extract_code. rewrite E1.
    unfold bind at 1, lift at 1. rewrite V. change (negb true) with false.
    cbv iota. unfold bind at 1. fold MAIN_PY.
    erewrite write_code_to_file_ok by exact P1.
    unfold bind at 1.
    erewrite get_llm_response_fails by (reflexivity || exact Hr || exact Hi).
    reflexivity.
  - cbn -[lit]. fold (main_path self). fold (main_file X self).
    split; [by rewrite lookup_insert_eq |].
    intros Hd. by rewrite lookup_insert_ne.
Qed.

(** X13. An answer whose content is not a string (null, a number, a list)
    ends the run with an [AttributeError] after the one request: nothing is
    written. *)
Theorem generate_project_content_not_string self requirements w (v : pyval) :
  answers X (posts w)
    (llm_request self CODE_WRITER (writer_prompt requirements)) v ->
  (forall s, v <> PStr s) ->
  exists e,
    generate_project X self requirements w
    = (Raise e, sent (llm_request self CODE_WRITER (writer_prompt requirements)) w)
    /\ Exn.class e = Exn.AttributeError.
Proof.
  intros A1 Hv. unfold generate_project, bind at 1.
  erewrite get_llm_response_answers by (reflexivity || exact A1).
  unfold bind at 1, lift at 1.
  destruct v; try (eexists; split; reflexivity). by destruct (Hv s).
Qed.

End Runs.

(** * Every run of [main] *)

Section MainRuns.

Context (X : externals).
Implicit Types (cl : command_line) (args : Namespace) (w : world).

(** X14. An interrupt is not swallowed: an exception of the first request
    that is no instance of [Exception] is neither wrapped by the client nor
    caught by the error boundary, and ends [main] uncaught. *)
Theorem main_interrupt cl args w (c : N) (key requirements : list N) w1 e :
  parse_arguments cl = inl args ->
  credential X args = Some (c :: key) ->
  read_requirements X (arg_requirements args) w = (Ok requirements, w1) ->
  requests_post X (posts w1)
    (llm_request (project_of args (c :: key)) CODE_WRITER
       (writer_prompt requirements)) = Raise e ->
  Exn.isinstance e Exn.Exception = false ->
  main X cl w
  = (Uncaught e,
     sent (llm_request (project_of args (c :: key)) CODE_WRITER
             (writer_prompt requirements)) (started w1)).
Proof.
  intros Hp Hc Hr Hq Hi. unfold main. rewrite Hp, (main_with_key _ _ _ _ _ Hc), Hr.
  assert (generate_project X (project_of args (c :: key)) requirements (started w1)
          = (Raise e,
             sent (llm_request (project_of args (c :: key)) CODE_WRITER
                     (writer_prompt requirements)) (started w1))) as ->.
  { change (posts w1) with (posts (started w1)) in Hq.
    unfold generate_project, bind at 1.
    erewrite get_llm_response_raised by (reflexivity || exact Hq).
    by rewrite Hi. }
  by rewrite Hi.
Qed.

(** X15. The result of the tests changes nothing: after a run of
    [generate_project] that returns, [main] runs the tests on
    [test_main.py], prints the completion message and returns, whatever
    exit code the runner returns; the files are as the runner left them. *)
Theorem main_ignores_test_result cl args w (c : N)
    (key requirements : list N) w1 w2 (n : Z) :
  let self := project_of args (c :: key) in
  parse_arguments cl = inl args ->
  credential X args = Some (c :: key) ->
  read_requirements X (arg_requirements args) w = (Ok requirements, w1) ->
  generate_project X self requirements (started w1) = (Ok tt, w2) ->
  fst (pytest_main X (pytest_args self) (files w2)) = Ok n ->
  fst (main X cl w) = Returned
  /\ trace (snd (main X cl w))
     = trace w2
       ++ [ Print (PStr ([10] ++ lit "Running tests..."));
            Pytest (pytest_args self);
            Print (PStr COMPLETED) ]
  /\ files (snd (main X cl w)) = snd (pytest_main X (pytest_args self) (files w2))
  /\ posts (snd (main X cl w)) = posts w2.
Proof.
  cbv zeta. intros Hp Hc Hr G Ht.
  unfold main. rewrite Hp, (main_with_key _ _ _ _ _ Hc), Hr, G.
  unfold run_tests, try_except, bind, pytest, ret.
  fold (test_path (project_of args (c :: key))).
  fold (pytest_args (project_of args (c :: key))).
  cbn [files log]. rewrite Ht. split; [done |].
  unfold tested, log. cbn [trace files posts snd]. by rewrite <- !app_assoc.
Qed.


End MainRuns.

(** * Bounds of [main] *)

Section MainBounds.

Context (X : externals).
Implicit Types (cl : command_line) (args : Namespace) (w : world).

Lemma read_requirements_cases (path : list N) w r w1 :
  read_requirements X path w = (r, w1) -> w1 = w \/ w1 = log (Read path) w.
Proof.
  unfold read_requirements. destruct (files w !! locate X path) as [[s|why|e]|];
    intros [= _ <-]; auto.
Qed.

Lemma run_tests_cases (self : CodeProject) w r w1 :
  run_tests X self w = (r, w1) ->
  w1 = tested X (pytest_args self) w
  \/ exists e, w1 = log (Print (PStr (lit "Error running tests: " ++ Exn.text e)))
                     (tested X (pytest_args self) w).
Proof.
  unfold run_tests, try_except, bind, pytest, ret, print, emit.
  fold (test_path self). fold (pytest_args self).
  destruct (fst (pytest_main X _ _)) as [n|e]; [intros [= _ <-]; by left |].
  destruct (Exn.isinstance e Exn.Exception); intros [= _ <-]; [right; eauto | by left].
Qed.

(** X18. However [main] ends, it has sent at most three requests, and each
    of them only after the arguments parsed and a credential was resolved,
    to the endpoint, with that credential as bearer token. *)
Theorem main_requests cl w o w' :
  main X cl w = (o, w') ->
  (posts w' <= posts w + 3)%nat
  /\ exists evs, trace w' = trace w ++ evs /\ Forall (authorised X cl) evs.
Proof.
  unfold main. destruct (parse_arguments cl) as [args|st] eqn:Hp.
  2: { intros [= _ <-]. split; [lia |]. exists [].
       split; [by rewrite app_nil_r | constructor]. }
  destruct (credential X args) as [[|c key]|] eqn:Hc.
  1, 3: unfold main_with; fold API_KEY_VAR; fold (credential X args); rewrite Hc;
        intros [= _ <-]; (split; [simpl; lia |]); eexists; split;
        [reflexivity | repeat constructor].
  rewrite (main_with_key _ _ _ _ _ Hc).
  assert (forall role prompt,
            authorised X cl (Post (llm_request (project_of args (c :: key)) role prompt)))
    as Hpost.
  { intros role prompt. exists args, c, key. by repeat split. }
  destruct (read_requirements X _ w) as [[requirements|e] w1] eqn:Hr.
  2: { apply read_requirements_cases in Hr as [-> | ->]; intros [= _ <-].
       - split; [lia |]. exists []. split; [by rewrite app_nil_r | constructor].
       - split; [simpl; lia |]. eexists. split; [reflexivity | repeat constructor]. }
  destruct (generate_project X _ _ (started w1)) as [r w2] eqn:G.
  apply generate_project_stage in G as (s & -> & _).
  assert (exists evs1, trace w1 = trace w ++ evs1 /\ posts w1 = posts w
                       /\ Forall (authorised X cl) evs1) as (evs1 & T1 & P1 & F1).
  { apply read_requirements_cases in Hr as [-> | ->].
    - exists []. split; [by rewrite app_nil_r |]. split; [done | constructor].
    - eexists. split; [reflexivity |]. split; [done | repeat constructor]. }
  assert (exists evs2,
            trace (stage_world X (project_of args (c :: key)) requirements
                     (started w1) s) = trace w1 ++ evs2
            /\ (posts (stage_world X (project_of args (c :: key)) requirements
                         (started w1) s) <= posts w1 + 3)%nat
            /\ Forall (authorised X cl) evs2) as (evs2 & T2 & P2 & F2).
  { destruct s; cbn -[lit]; (eexists; split; [by rewrite <- ?app_assoc |]);
      (split; [lia |]);
      repeat (cbn [app]; apply Forall_cons; split; [exact I || apply Hpost |]);
      constructor. }
  assert (forall w3 evs3,
            trace w3 = trace (stage_world X (project_of args (c :: key)) requirements
                                (started w1) s) ++ evs3 ->
            posts w3 = posts (stage_world X (project_of args (c :: key)) requirements
                                (started w1) s) ->
            Forall (authorised X cl) evs3 ->
            (posts w3 <= posts w + 3)%nat
            /\ exists evs, trace w3 = trace w ++ evs /\ Forall (authorised X cl) evs)
    as Hend.
  { intros w3 evs3 T3 P3 F3. split; [lia |].
    exists (evs1 ++ evs2 ++ evs3). rewrite T3, T2, T1, <- !app_assoc.
    split; [done |]. by repeat apply Forall_app_2. }
  destruct r as [[]|e].
  - destruct (run_tests X _ _) as [[[]|e] w3] eqn:T.
    + intros [= _ <-]. apply run_tests_cases in T as [-> | [e ->]].
      * eapply (Hend _ [_; _; _]); [cbn -[lit]; by rewrite <- ?app_assoc | done
                                    | repeat constructor].
      * eapply (Hend _ [_; _; _; _]); [cbn -[lit]; by rewrite <- ?app_assoc | done
                                       | repeat constructor].
    + apply run_tests_cases in T as [-> | [e' ->]];
        destruct (Exn.isinstance e Exn.Exception); intros [= _ <-].
      * eapply (Hend _ [_; _; _]); [cbn -[lit]; by rewrite <- ?app_assoc | done
                                    | repeat constructor].
      * eapply (Hend _ [_; _]); [cbn -[lit]; by rewrite <- ?app_assoc | done
                                 | repeat constructor].
      * eapply (Hend _ [_; _; _; _]); [cbn -[lit]; by rewrite <- ?app_assoc | done
                                       | repeat constructor].
      * eapply (Hend _ [_; _; _]); [cbn -[lit]; by rewrite <- ?app_assoc | done
                                    | repeat constructor].
  - destruct (Exn.isinstance e Exn.Exception); intros [= _ <-].
    + eapply (Hend _ [_]); [reflexivity | done | repeat constructor].
    + eapply (Hend _ []); [by rewrite app_nil_r | done | constructor].
Qed.

(** X17. An answer whose list of choices is empty is a failure like any
    other: the [IndexError] of the subscript is wrapped and raised. *)
Theorem generate_response_empty_choices (self : OpenRouterLLM) (messages : pyval)
    w r d :
  requests_post X (posts w) (request_of self messages) = Ok r ->
  error_status r = false ->
  json_body r = Ok (PDict d) ->
  Py.dict_get d (lit "choices") = Some (PList []) ->
  generate_response X self messages w
  = (failure (Exn.Raised Exn.IndexError (lit "list index out of range")),
     sent (request_of self messages) w).
Proof.
  intros Hr Hs Hb Hd. rewrite generate_response_eq, Hr, (raise_for_status_ok r Hs).
  unfold first_choice_content. rewrite Hb. unfold Py.getitem_str. by rewrite Hd.
Qed.

End MainBounds.

(** * The further properties on the scenarios *)

Ltac scripted_answer := eexists; (split; [reflexivity | split; reflexivity]).

Lemma demo_runner_persists ran key replies self name code w :
  persists (demo_runner ran key replies) self name code w.
Proof. split; reflexivity. Qed.

Lemma demo_runner_shows ran key replies v w :
  shows (demo_runner ran key replies) v w.
Proof. reflexivity. Qed.

Lemma generate_project_effects_prefix_witness :
  exists code review test_code evs,
    trace (generated (demo None good_replies) demo_project REQS (lit "x = 1")
             (PStr (lit "Looks fine.")) (lit "assert True") empty_world)
    = trace empty_world ++ evs
    /\ evs `prefix_of` pipeline demo_project REQS code review test_code
    /\ evs <> []
    /\ (is_ok (Ok tt) = true ->
        evs = pipeline demo_project REQS code review test_code).
Proof.
  apply (generate_project_effects_prefix (demo None good_replies) demo_project
           REQS empty_world (Ok tt)).
  apply (generate_project_success (demo None good_replies) demo_project REQS
           empty_world GOOD_ANSWER (lit "x = 1") (PStr (lit "Looks fine."))
           TESTS_ANSWER (lit "assert True"));
    first [apply demo_persists | apply demo_shows | reflexivity | scripted_answer].
Defined.

Lemma generate_project_frame_witness :
  files (generated (demo None good_replies) demo_project REQS (lit "x = 1")
           (PStr (lit "Looks fine.")) (lit "assert True") used_world) !! NOTES
  = files used_world !! NOTES
  /\ (posts used_world
      < posts (generated (demo None good_replies) demo_project REQS (lit "x = 1")
                 (PStr (lit "Looks fine.")) (lit "assert True") used_world))%nat.
Proof.
  destruct (generate_project_frame (demo None good_replies) demo_project REQS
              used_world (Ok tt)
              (generated (demo None good_replies) demo_project REQS (lit "x = 1")
                 (PStr (lit "Looks fine.")) (lit "assert True") used_world))
    as (H1 & _ & _ & H2 & _).
  - apply (generate_project_success (demo None good_replies) demo_project REQS
             used_world GOOD_ANSWER (lit "x = 1") (PStr (lit "Looks fine."))
             TESTS_ANSWER (lit "assert True"));
      first [apply demo_persists | apply demo_shows | reflexivity | scripted_answer].
  - split; [| exact H2]. apply H1; discriminate.
Defined.

Lemma generate_project_requests_witness :
  exists evs,
    trace (sent (llm_request demo_project CODE_WRITER (writer_prompt REQS))
             empty_world) = trace empty_world ++ evs
    /\ Forall (request_by (llm demo_project)) evs.
Proof.
  apply (generate_project_requests (demo None bad_replies) demo_project REQS
           empty_world (Raise INVALID_CODE)).
  apply (generate_project_invalid (demo None bad_replies) demo_project REQS
           empty_world BAD_ANSWER (lit "x = ("));
    first [reflexivity | scripted_answer].
Defined.

Lemma get_llm_response_unknown_role_witness :
  exists e,
    get_llm_response (demo None good_replies) demo_project (lit "tester")
      (lit "hello") empty_world = (Raise e, empty_world)
    /\ Exn.class e = Exn.KeyError.
Proof.
  apply (get_llm_response_unknown_role (demo None good_replies) demo_project
           (lit "tester") (lit "hello") empty_world).
  reflexivity.
Defined.


Lemma write_code_to_file_again_witness :
  files (written (demo None []) (lit "ws/main.py") (lit "x = 2")
           (made (lit "ws")
              (written (demo None []) (lit "ws/main.py") (lit "x = 1")
                 (made (lit "ws") used_world))))
  = <[lit "ws/main.py" := Text (lit "x = 2")]> (files used_world).
Proof.
  apply (write_code_to_file_again (demo None []) demo_project (lit "x = 1")
           (lit "x = 2") MAIN_PY used_world
           (written (demo None []) (lit "ws/main.py") (lit "x = 1")
              (made (lit "ws") used_world))
           (written (demo None []) (lit "ws/main.py") (lit "x = 2")
              (made (lit "ws")
                 (written (demo None []) (lit "ws/main.py") (lit "x = 1")
                    (made (lit "ws") used_world)))));
    reflexivity.
Defined.

Lemma generate_project_review_fails_witness :
  exists w',
    generate_project (demo None [reply (PStr GOOD_ANSWER)]) demo_project REQS
      empty_world
    = (failure (Exn.Raised Exn.ConnectionError (lit "Connection refused")), w')
    /\ files w' !! lit "ws/main.py" = Some (Text (lit "x = 1"))
    /\ files w' !! lit "ws/test_main.py" = None.
Proof.
  destruct (generate_project_review_fails (demo None [reply (PStr GOOD_ANSWER)])
              demo_project REQS empty_world GOOD_ANSWER (lit "x = 1")
              (Exn.Raised Exn.ConnectionError (lit "Connection refused")))
    as (w' & Hrun & _ & Hmain & Htest);
    [scripted_answer | reflexivity | reflexivity | apply demo_persists
     | reflexivity | reflexivity |].
  exists w'. split; [exact Hrun |]. split; [exact Hmain |].
  apply Htest. discriminate.
Defined.

Lemma generate_project_content_not_string_witness :
  exists e,
    generate_project (demo None [reply PNone]) demo_project REQS empty_world
    = (Raise e,
       sent (llm_request demo_project CODE_WRITER (writer_prompt REQS)) empty_world)
    /\ Exn.class e = Exn.AttributeError.
Proof.
  apply (generate_project_content_not_string (demo None [reply PNone])
           demo_project REQS empty_world PNone).
  - scripted_answer.
  - discriminate.
Defined.

Lemma main_interrupt_witness :
  main (demo None [Raise INTERRUPT]) demo_line empty_world
  = (Uncaught INTERRUPT,
     sent (llm_request demo_project CODE_WRITER (writer_prompt REQS))
       (started empty_world))
  /\ exit_status (Uncaught INTERRUPT) = 130%Z.
Proof.
  split; [| reflexivity].
  apply (main_interrupt (demo None [Raise INTERRUPT]) demo_line demo_args
           empty_world 115 (lit "k-test") REQS empty_world INTERRUPT);
    reflexivity.
Defined.

Lemma main_ignores_test_result_witness :
  fst (main (demo_runner (Ok 1%Z) None good_replies) demo_line empty_world)
  = Returned
  /\ trace (snd (main (demo_runner (Ok 1%Z) None good_replies) demo_line
                    empty_world))
     = trace (generated (demo_runner (Ok 1%Z) None good_replies) demo_project
                REQS (lit "x = 1") (PStr (lit "Looks fine."))
                (lit "assert True") (started empty_world))
       ++ [ Print (PStr ([10] ++ lit "Running tests..."));
            Pytest (pytest_args demo_project);
            Print (PStr COMPLETED) ].
Proof.
  destruct (main_ignores_test_result (demo_runner (Ok 1%Z) None good_replies)
              demo_line demo_args empty_world 115 (lit "k-test") REQS empty_world
              (generated (demo_runner (Ok 1%Z) None good_replies) demo_project
                 REQS (lit "x = 1") (PStr (lit "Looks fine."))
                 (lit "assert True") (started empty_world))
              1%Z) as (H1 & H2 & _);
    [reflexivity | reflexivity | reflexivity | | reflexivity | exact (conj H1 H2)].
  apply (generate_project_success (demo_runner (Ok 1%Z) None good_replies)
           demo_project REQS (started empty_world) GOOD_ANSWER (lit "x = 1")
           (PStr (lit "Looks fine.")) TESTS_ANSWER (lit "assert True"));
    first [apply demo_runner_persists | apply demo_runner_shows | reflexivity
          | scripted_answer].
Defined.


Lemma main_requests_witness :
  (posts (sent (llm_request demo_project CODE_WRITER (writer_prompt REQS))
            (started empty_world)) <= posts empty_world + 3)%nat
  /\ exists evs,
       trace (sent (llm_request demo_project CODE_WRITER (writer_prompt REQS))
                (started empty_world)) = trace empty_world ++ evs
       /\ Forall (authorised (demo None [Raise INTERRUPT]) demo_line) evs.
Proof.
  apply (main_requests (demo None [Raise INTERRUPT]) demo_line empty_world
           (Uncaught INTERRUPT)).
  reflexivity.
Defined.

Lemma generate_response_empty_choices_witness :
  generate_response (demo None [no_choices]) demo_client demo_messages empty_world
  = (failure (Exn.Raised Exn.IndexError (lit "list index out of range")),
     sent (request_of demo_client demo_messages) empty_world).
Proof.
  eapply (generate_response_empty_choices (demo None [no_choices]) demo_client
            demo_messages empty_world); reflexivity.
Defined.
